(** * VectorIndex: an OpenSearch Serverless vector index as a CDK construct

  Shallow embedding of [src/cdk-lib/opensearch-vectorindex/vector-index.ts].

  The constructor of [VectorIndex] is straight-line code that reads its
  props and declares resources in the enclosing stack.  It is embedded as
  a state transformer over a [World]: the caller's mutable JavaScript
  objects (arrays and records, held by reference) on one side, the
  constructs declared so far in the stack on the other. *)

From Stdlib Require Import ZArith Ascii String List.
From Stdlib.Floats Require Import SpecFloat.
From stdpp Require Import base option list gmap strings pretty.

Local Open Scope string_scope.
Local Open Scope list_scope.

Set Warnings "-register-all".

(** ** JavaScript values *)

Module Js.

(** A JavaScript number is an IEEE 754 binary64. *)
Definition number : Type := spec_float.

Definition prec : Z := 53.
Definition emax : Z := 1024.

(** The number denoted by an integer literal of the source. *)
Definition of_Z (z : Z) : number := binary_normalize prec emax z 0 false.

Definition NaN : number := S754_nan.

(** The values that [JSON.stringify] is applied to in this file: what a
    [Record<string, any>] or an object literal holds.  An object is the
    list of its own enumerable properties in enumeration order.  These are
    the values of JSON together with [undefined]; functions, symbols, big
    integers, objects with a [toJSON] method and cyclic structures have no
    counterpart here. *)
Inductive value : Type :=
| JUndefined
| JNull
| JBool (b : bool)
| JNumber (n : number)
| JString (s : string)
| JArray (items : list value)
| JObject (props : list (string * value)).

(** A [Record<string, any>]. *)
Definition record : Type := list (string * value).

(** *** ToBoolean, and the [||] operator *)

Class Truthy (A : Type) := truthy : A -> bool.

(** The empty string is falsy. *)
#[export] Instance string_truthy : Truthy string :=
  fun s => match s with EmptyString => false | _ => true end.

(** [+0], [-0] and [NaN] are falsy. *)
#[export] Instance number_truthy : Truthy number :=
  fun n => match n with
           | S754_zero _ | S754_nan => false
           | S754_infinity _ | S754_finite _ _ _ => true
           end.

(** Every object is truthy, the empty one too. *)
#[export] Instance record_truthy : Truthy record := fun _ => true.

(** For an optional property [x?: A], [undefined] is [None]. *)
#[export] Instance option_truthy {A} `{Truthy A} : Truthy (option A) :=
  fun o => match o with Some a => truthy a | None => false end.

(** [x || d] for an optional property [x?: A] and a default [d : A]. *)
Definition or {A} `{Truthy A} (x : option A) (d : A) : A :=
  match x with
  | Some a => if truthy a then a else d
  | None => d
  end.

End Js.

Notation "x '|||' d" := (Js.or x d) (at level 50, left associativity).

(** ** JSON.stringify *)

Module JSON.
Import Js.

Definition dquote : ascii := ascii_of_N 34.

Definition hex_digit (n : N) : ascii :=
  match n with
  | 0%N => "0" | 1%N => "1" | 2%N => "2" | 3%N => "3" | 4%N => "4"
  | 5%N => "5" | 6%N => "6" | 7%N => "7" | 8%N => "8" | 9%N => "9"
  | 10%N => "a" | 11%N => "b" | 12%N => "c" | 13%N => "d" | 14%N => "e"
  | _ => "f"
  end%char.

(** QuoteJSONString on one code unit: the two mandatory escapes, the five
    short escapes, [\u00xx] for the other control characters. *)
Definition quote_char (c : ascii) : string :=
  let n := N_of_ascii c in
  if (n =? 34)%N then "\" +:+ String dquote EmptyString
  else if (n =? 92)%N then "\\"
  else if (n =? 8)%N then "\b"
  else if (n =? 9)%N then "\t"
  else if (n =? 10)%N then "\n"
  else if (n =? 12)%N then "\f"
  else if (n =? 13)%N then "\r"
  else if (n <? 32)%N then
    "\u00" +:+ String (hex_digit (n / 16)) (String (hex_digit (n mod 16)) EmptyString)
  else String c EmptyString.

Fixpoint quote_body (s : string) : string :=
  match s with
  | EmptyString => EmptyString
  | String c s' => quote_char c +:+ quote_body s'
  end.

Definition quote (s : string) : string :=
  String dquote (quote_body s +:+ String dquote EmptyString).

Section Stringify.

(** Number::toString, the shortest decimal that reads back as the same
    binary64, is the JavaScript engine's; it is only ever applied to finite
    numbers. *)
Variable Number_toString : number -> string.

Definition is_finite (n : number) : bool :=
  match n with
  | S754_zero _ | S754_finite _ _ _ => true
  | S754_infinity _ | S754_nan => false
  end.

(** SerializeJSONProperty with no replacer and no indentation: [None] is
    the [undefined] that makes the caller drop a property or write [null]
    for an array element. *)
Fixpoint serialize (v : value) : option string :=
  match v with
  | JUndefined => None
  | JNull => Some "null"
  | JBool true => Some "true"
  | JBool false => Some "false"
  | JNumber n => Some (if is_finite n then Number_toString n else "null")
  | JString s => Some (quote s)
  | JArray items =>
      let fix elements (l : list value) : list string :=
        match l with
        | [] => []
        | x :: l' => default "null" (serialize x) :: elements l'
        end in
      Some ("[" +:+ String.concat "," (elements items) +:+ "]")
  | JObject props =>
      let fix members (l : list (string * value)) : list string :=
        match l with
        | [] => []
        | (k, x) :: l' =>
            match serialize x with
            | Some str => (quote k +:+ ":" +:+ str) :: members l'
            | None => members l'
            end
        end in
      Some ("{" +:+ String.concat "," (members props) +:+ "}")
  end.

(** [JSON.stringify(v)]. *)
Definition stringify (v : value) : option string := serialize v.

(** SerializeJSONArray and SerializeJSONObject: [JSON.stringify] of an array
    and of an object, which always yield a string. *)
Definition stringify_array (items : list value) : string :=
  "[" +:+ String.concat "," (map (fun x => default "null" (serialize x)) items) +:+ "]".

Definition member (kx : string * value) : option string :=
  match serialize kx.2 with
  | Some str => Some (quote kx.1 +:+ ":" +:+ str)
  | None => None
  end.

Definition stringify_object (props : record) : string :=
  "{" +:+ String.concat "," (omap member props) +:+ "}".

End Stringify.

End JSON.

(** ** Constructs and the caller's objects *)

(** A construct is known by its node path, root first. *)
Definition Construct : Type := list string.

(** A reference to one of the caller's mutable objects. *)
Definition loc : Type := nat.

(** The enumerations of [../opensearchserverless/analysis-plugins]; their
    declarations are not part of this file and nothing here inspects their
    values. *)
Class AnalysisPlugins : Type := {
  CharacterFilterType : Type;
  TokenizerType : Type;
  TokenFilterType : Type;
}.

(** The options [generatePhysicalNameV2] is called with. *)
Record GeneratePhysicalNameV2Options : Type := {
  maxLength : nat;
  lower : bool;
}.

(** Adding to a JavaScript [Set], or to an array that is searched before it
    is pushed to: insertion order is kept and an element is held once. *)
Definition Set_add {A} `{EqDecision A} (x : A) (s : list A) : list A :=
  if decide (x ∈ s) then s else s ++ [x].

Module iam.
Record Role : Type := {
  roleArn : string;
  managedPolicies : list Construct;
}.

(** [Role.addManagedPolicy]: a policy already attached is not attached
    twice. *)
Definition addManagedPolicy (policy : Construct) (r : Role) : Role :=
  {| roleArn := roleArn r;
     managedPolicies := Set_add policy (managedPolicies r) |}.
End iam.

Module lambda.
Definition Runtime : Type := string.
Definition NODEJS_18_X : Runtime := "nodejs18.x".

Record Function : Type := {
  code : string;
  handler : string;
  runtime : Runtime;
}.
End lambda.

(** The argument of [buildCustomResourceProvider]. *)
Record CRProviderProps : Type := {
  providerName : string;
  codePath : string;
  handler : string;
  runtime : lambda.Runtime;
}.

(** What the environment of this file supplies: the JavaScript engine, Node,
    the CDK token machinery and the helper of [../../common/helpers/utils]. *)
Class Host : Type := {
  Number_toString : Js.number -> string;
  path_join : string -> string -> string;
  __dirname : string;
  generatePhysicalNameV2 : Construct -> string -> GeneratePhysicalNameV2Options -> string;
  (** the execution role declared for a provider, and the token that stands
      for the provider's service token *)
  providerRole : CRProviderProps -> iam.Role;
  providerServiceToken : CRProviderProps -> string;
}.

(** *** The props *)

Record MetadataManagementFieldProps : Type := {
  mappingField : string;
  dataType : string;
  filterable : bool;
}.

(** The two filter lists are JavaScript arrays, held by reference. *)
Record Analyzer `{AnalysisPlugins} : Type := {
  characterFilters : loc;
  tokenizer : TokenizerType;
  tokenFilters : loc;
}.

(** The part of [VectorCollection] (declared in [../opensearchserverless])
    that this file reads.  The collection, its managed policy and its data
    access policy are constructs. *)
Record VectorCollection : Type := {
  collectionNode : Construct;
  collectionName : string;
  collectionId : string;
  aossPolicy : Construct;
  dataAccessPolicy : Construct;
}.

(** [mappings] is an array and [parameters], [customSettings] are objects:
    all three are held by reference. *)
Record VectorIndexProps `{AnalysisPlugins} : Type := {
  collection : VectorCollection;
  indexName : string;
  vectorField : string;
  vectorDimensions : Js.number;
  mappings : loc;
  analyzer : option Analyzer;
  engine : option string;
  spaceType : option string;
  methodName : option string;
  parameters : option loc;
  numberOfShards : option Js.number;
  efSearch : option Js.number;
  customSettings : option loc;
}.

(** *** What the constructor declares *)

Module oss.
Record CfnAccessPolicyProps : Type := {
  name : string;
  type : string;
  policy : string;
}.

Record CfnAccessPolicy : Type := {
  node : Construct;
  props : CfnAccessPolicyProps;
}.
End oss.

(** The [properties] of the custom resource. *)
Module Properties.
Record MetadataManagementField : Type := {
  MappingField : string;
  DataType : string;
  Filterable : bool;
}.

Record AnalyzerProps `{AnalysisPlugins} : Type := {
  CharacterFilters : loc;
  Tokenizer : TokenizerType;
  TokenFilters : loc;
}.

Record t `{AnalysisPlugins} : Type := {
  CollectionName : string;
  Endpoint : string;
  IndexName : string;
  VectorField : string;
  VectorDimension : Js.number;
  Engine : string;
  SpaceType : string;
  MethodName : string;
  Parameters : string;
  NumberOfShards : Js.number;
  EfSearch : Js.number;
  CustomSettings : string;
  MetadataManagement : list MetadataManagementField;
  Analyzer : option AnalyzerProps;
}.
End Properties.

Module cdk.
Record CustomResourceProps `{AnalysisPlugins} : Type := {
  serviceToken : string;
  properties : Properties.t;
  resourceType : string;
}.

(** [dependencies] is the set behind [node.addDependency], in insertion
    order. *)
Record CustomResource `{AnalysisPlugins} : Type := {
  node : Construct;
  props : CustomResourceProps;
  dependencies : list Construct;
}.

Definition addDependency `{AnalysisPlugins} (dep : Construct) (r : CustomResource) : CustomResource :=
  {| node := node r;
     props := props r;
     dependencies := Set_add dep (dependencies r) |}.
End cdk.

(** The provider behind the custom resources of one kind.  [id] is the name
    the stack holds it under. *)
Module CRProvider.
Record t : Type := {
  id : string;
  role : iam.Role;
  serviceToken : string;
  onEventHandler : lambda.Function;
}.

Definition addManagedPolicy (policy : Construct) (p : t) : t :=
  {| id := id p;
     role := iam.addManagedPolicy policy (role p);
     serviceToken := serviceToken p;
     onEventHandler := onEventHandler p |}.

(** One provider at two moments: everything but the policies attached to
    its role meanwhile is fixed when it is created. *)
Definition same (p q : t) : Prop :=
  id p = id q
  /\ iam.roleArn (role p) = iam.roleArn (role q)
  /\ serviceToken p = serviceToken q
  /\ onEventHandler p = onEventHandler q.
End CRProvider.

(** An instance of the class. *)
Module VectorIndex.
Record t : Type := {
  node : Construct;
  indexName : string;
  vectorField : string;
  vectorDimensions : Js.number;
}.
End VectorIndex.

(** ** The world the constructor runs in *)

Section Model.
Context `{AnalysisPlugins} `{Host}.

(** The caller's arrays and records.  A reference is read through the heap;
    writing would change the heap. *)
Record Heap : Type := {
  mappingArrays : loc -> list MetadataManagementFieldProps;
  characterFilterArrays : loc -> list CharacterFilterType;
  tokenFilterArrays : loc -> list TokenFilterType;
  records : loc -> Js.record;
}.

(** The enclosing stack: its region, the providers it holds by name, and
    the constructs declared in it, in order of creation. *)
Record Stack : Type := {
  region : string;
  providers : gmap string CRProvider.t;
  vectorIndexes : list VectorIndex.t;
  accessPolicies : list oss.CfnAccessPolicy;
  customResources : list cdk.CustomResource;
}.

Record World : Type := {
  heap : Heap;
  stack : Stack;
}.

(** *** State passing *)

Definition M (A : Type) : Type := World -> A * World.

#[export] Instance M_ret : MRet M := fun A a w => (a, w).

#[export] Instance M_bind : MBind M :=
  fun A B k m w => let (a, w') := m w in k a w'.

Definition gets {A} (f : World -> A) : M A := fun w => (f w, w).

Definition modify_stack (f : Stack -> Stack) : M unit :=
  fun w => (tt, {| heap := heap w; stack := f (stack w) |}).

Definition run {A} (m : M A) (w : World) : World := (m w).2.

Definition result {A} (m : M A) (w : World) : A := (m w).1.

End Model.

Section Constructs.
Context `{AnalysisPlugins} `{Host}.

(** *** The framework's operations *)

(** [cdk.Stack.of(scope).region] *)
Definition Stack_region (scope : Construct) : M string :=
  gets (fun w => region (stack w)).

(** [new oss.CfnAccessPolicy(scope, id, props)] *)
Definition CfnAccessPolicy_new (scope : Construct) (id : string)
    (props : oss.CfnAccessPolicyProps) : M Construct :=
  let node := scope ++ [id] in
  modify_stack (fun s =>
    {| region := region s;
       providers := providers s;
       vectorIndexes := vectorIndexes s;
       accessPolicies := accessPolicies s ++ [ {| oss.node := node; oss.props := props |} ];
       customResources := customResources s |});;
  mret node.

(** [new cdk.CustomResource(scope, id, props)]; the result is the place of
    the new resource among the custom resources of the stack. *)
Definition CustomResource_new (scope : Construct) (id : string)
    (props : cdk.CustomResourceProps) : M nat :=
  h ← gets (fun w => length (customResources (stack w)));
  modify_stack (fun s =>
    {| region := region s;
       providers := providers s;
       vectorIndexes := vectorIndexes s;
       accessPolicies := accessPolicies s;
       customResources := customResources s ++
         [ {| cdk.node := scope ++ [id]; cdk.props := props; cdk.dependencies := [] |} ] |});;
  mret h.

(** [r.node.addDependency(dep)] *)
Definition addDependency (r : nat) (dep : Construct) : M unit :=
  modify_stack (fun s =>
    {| region := region s;
       providers := providers s;
       vectorIndexes := vectorIndexes s;
       accessPolicies := accessPolicies s;
       customResources := alter (cdk.addDependency dep) r (customResources s) |}).

(** [p.role.addManagedPolicy(policy)]: the provider is shared, the change is
    made to the one object the stack holds. *)
Definition Role_addManagedPolicy (p : CRProvider.t) (policy : Construct) : M unit :=
  modify_stack (fun s =>
    {| region := region s;
       providers := alter (CRProvider.addManagedPolicy policy) (CRProvider.id p) (providers s);
       vectorIndexes := vectorIndexes s;
       accessPolicies := accessPolicies s;
       customResources := customResources s |}).

(** [super(scope, id)] followed by the assignments to the fields of [this]:
    the instance becomes a child of [scope].  This is the call the framework
    accepts: it refuses an id already taken in the scope, and it writes a
    path separator in an id as two dashes, so that the node is at
    [scope ++ [id]] for an id without one. *)
Definition Resource_new (this : VectorIndex.t) : M VectorIndex.t :=
  modify_stack (fun s =>
    {| region := region s;
       providers := providers s;
       vectorIndexes := vectorIndexes s ++ [this];
       accessPolicies := accessPolicies s;
       customResources := customResources s |});;
  mret this.

(** *** The provider factory *)

Record ICRProviderClass : Type := {
  getProvider : Construct -> M CRProvider.t;
}.

(** Modelled from the spec: [buildCustomResourceProvider], of
    [../../common/helpers/custom-resource-provider-helper], is not part of
    this file.  The spec describes what it returns as a shared singleton
    factory that lazily creates a custom-resource provider backed by a Lambda
    function: [getProvider] hands out the provider the stack already holds
    under [providerName], and creates it, together with its function, when
    there is none. *)
Definition buildCustomResourceProvider (props : CRProviderProps) : ICRProviderClass :=
  {| getProvider := fun scope w =>
       match providers (stack w) !! providerName props with
       | Some existing => (existing, w)
       | None =>
           let created :=
             {| CRProvider.id := providerName props;
                CRProvider.role := providerRole props;
                CRProvider.serviceToken := providerServiceToken props;
                CRProvider.onEventHandler :=
                  {| lambda.code := codePath props;
                     lambda.handler := handler props;
                     lambda.runtime := runtime props |} |} in
           (created,
            {| heap := heap w;
               stack :=
                 {| region := region (stack w);
                    providers := <[providerName props := created]> (providers (stack w));
                    vectorIndexes := vectorIndexes (stack w);
                    accessPolicies := accessPolicies (stack w);
                    customResources := customResources (stack w) |} |})
       end |}.

Definition OpenSearchIndexCRProvider : ICRProviderClass :=
  buildCustomResourceProvider
    {| providerName := "OpenSearchIndexCRProvider";
       codePath := path_join __dirname "../../../lambda/opensearch-serverless-custom-resources/index.ts";
       handler := "handler";
       runtime := lambda.NODEJS_18_X |}.

End Constructs.

(** ** The constructor of [VectorIndex] *)

Section VectorIndex.
Context `{AnalysisPlugins} `{Host}.

Import Js.

(** [JSON.stringify(o || {})] for an optional object [o] of the props.  The
    object is read through its reference; an object is truthy, so the empty
    object stands in for [undefined] only. *)
Definition stringify_or_empty (o : option loc) : M string :=
  gets (fun w => JSON.stringify_object Number_toString ((records (heap w) <$> o) ||| [])).

(** [a.map(f)] for the array behind [a]: a new array, [a] is only read. *)
Definition Array_map {B} (f : MetadataManagementFieldProps -> B) (a : loc) : M (list B) :=
  gets (fun w => map f (mappingArrays (heap w) a)).

Definition VectorIndex_constructor (scope : Construct) (id : string)
    (props : VectorIndexProps) : M VectorIndex.t :=
  this ← Resource_new
    {| VectorIndex.node := scope ++ [id];
       VectorIndex.indexName := indexName props;
       VectorIndex.vectorField := vectorField props;
       VectorIndex.vectorDimensions := vectorDimensions props |};
  let scope_this := VectorIndex.node this in

  crProvider ← getProvider OpenSearchIndexCRProvider scope_this;
  Role_addManagedPolicy crProvider (aossPolicy (collection props));;

  let manageIndexPolicyName :=
    generatePhysicalNameV2 scope_this "ManageIndexPolicy"
      {| maxLength := 32; lower := true |} in
  manageIndexPolicy ← CfnAccessPolicy_new scope_this "ManageIndexPolicy"
    {| oss.name := manageIndexPolicyName;
       oss.type := "data";
       oss.policy := JSON.stringify_array Number_toString
         [ JObject
             [ ("Rules", JArray
                 [ JObject
                     [ ("Resource", JArray
                         [ JString ("index/" +:+ collectionName (collection props) +:+ "/*") ]);
                       ("Permission", JArray
                         [ JString "aoss:DescribeIndex";
                           JString "aoss:CreateIndex";
                           JString "aoss:DeleteIndex";
                           JString "aoss:UpdateIndex" ]);
                       ("ResourceType", JString "index") ];
                   JObject
                     [ ("Resource", JArray
                         [ JString ("collection/" +:+ collectionName (collection props)) ]);
                       ("Permission", JArray [ JString "aoss:DescribeCollectionItems" ]);
                       ("ResourceType", JString "collection") ] ]);
               ("Principal", JArray [ JString (iam.roleArn (CRProvider.role crProvider)) ]);
               ("Description", JString EmptyString) ] ] |};

  let analyzerProps :=
    match analyzer props with
    | Some a =>
        Some {| Properties.CharacterFilters := characterFilters a;
                Properties.Tokenizer := tokenizer a;
                Properties.TokenFilters := tokenFilters a |}
    | None => None
    end in

  stack_region ← Stack_region scope_this;
  parametersJson ← stringify_or_empty (parameters props);
  customSettingsJson ← stringify_or_empty (customSettings props);
  metadataManagement ← Array_map
    (fun m => {| Properties.MappingField := mappingField m;
                 Properties.DataType := dataType m;
                 Properties.Filterable := filterable m |})
    (mappings props);
  vectorIndex ← CustomResource_new scope_this "VectorIndex"
    {| cdk.serviceToken := CRProvider.serviceToken crProvider;
       cdk.properties :=
         {| Properties.CollectionName := collectionName (collection props);
            Properties.Endpoint :=
              collectionId (collection props) +:+ "." +:+ stack_region +:+ ".aoss.amazonaws.com";
            Properties.IndexName := indexName props;
            Properties.VectorField := vectorField props;
            Properties.VectorDimension := vectorDimensions props;
            Properties.Engine := engine props ||| "faiss";
            Properties.SpaceType := spaceType props ||| "l2";
            Properties.MethodName := methodName props ||| "hnsw";
            Properties.Parameters := parametersJson;
            Properties.NumberOfShards := numberOfShards props ||| of_Z 2;
            Properties.EfSearch := efSearch props ||| of_Z 512;
            Properties.CustomSettings := customSettingsJson;
            Properties.MetadataManagement := metadataManagement;
            Properties.Analyzer := analyzerProps |};
       cdk.resourceType := "Custom::OpenSearchIndex" |};

  addDependency vectorIndex manageIndexPolicy;;
  addDependency vectorIndex (collectionNode (collection props));;
  addDependency vectorIndex (dataAccessPolicy (collection props));;
  mret this.

End VectorIndex.

(** ** Histories

    The operations of this file that act on a stack, and a stack's history
    as a list of them. *)

Section Calls.
Context `{AnalysisPlugins} `{Host}.

Inductive Call : Type :=
| NewVectorIndex (scope : Construct) (id : string) (props : VectorIndexProps)
| GetProvider (scope : Construct).

Definition perform (c : Call) : M unit :=
  match c with
  | NewVectorIndex scope id props => VectorIndex_constructor scope id props;; mret tt
  | GetProvider scope => getProvider OpenSearchIndexCRProvider scope;; mret tt
  end.

Fixpoint perform_all (cs : list Call) (w : World) : World :=
  match cs with
  | [] => w
  | c :: cs' => perform_all cs' (run (perform c) w)
  end.

End Calls.

(** ** A concrete environment and concrete inputs *)

(** The integer a number stands for, when it is one. *)
Definition integer_of (n : Js.number) : option Z :=
  match n with
  | S754_zero _ => Some 0%Z
  | S754_finite s m e =>
      let signed (z : Z) := if s then (- z)%Z else z in
      if (0 <=? e)%Z then Some (signed (Z.pos m * 2 ^ e)%Z)
      else if (Z.pos m mod 2 ^ (- e) =? 0)%Z then Some (signed (Z.pos m / 2 ^ (- e))%Z)
      else None
  | _ => None
  end.

(** Number::toString on the integers the examples use. *)
Definition sample_Number_toString (n : Js.number) : string :=
  match integer_of n with
  | Some z => pretty z
  | None => "NaN"
  end.

(** Expected JSON texts are written with ['] where JSON has its double
    quote. *)
Fixpoint json_text (s : string) : string :=
  match s with
  | EmptyString => EmptyString
  | String c s' => String (if Ascii.eqb c "'" then JSON.dquote else c) (json_text s')
  end.

Definition sample_plugins : AnalysisPlugins :=
  {| CharacterFilterType := string;
     TokenizerType := string;
     TokenFilterType := string |}.

Definition sample_host : Host :=
  {| Number_toString := sample_Number_toString;
     path_join := fun dir rel => dir +:+ "/" +:+ rel;
     __dirname := "/src/cdk-lib/opensearch-vectorindex";
     generatePhysicalNameV2 := fun scope prefix options =>
       substring 0 (maxLength options) (String.concat "-" scope +:+ "-" +:+ prefix);
     providerRole := fun p =>
       {| iam.roleArn := "arn:aws:iam::111122223333:role/" +:+ providerName p;
          iam.managedPolicies := [] |};
     providerServiceToken := fun p =>
       "arn:aws:lambda:us-east-1:111122223333:function:" +:+ providerName p |}.

Section Sample.
#[local] Existing Instance sample_plugins.
#[local] Existing Instance sample_host.

Definition sample_collection : VectorCollection :=
  {| collectionNode := ["App"; "Stack"; "Collection"];
     collectionName := "docs";
     collectionId := "abc123";
     aossPolicy := ["App"; "Stack"; "Collection"; "AOSSApiAccessAll"];
     dataAccessPolicy := ["App"; "Stack"; "Collection"; "DataAccessPolicy"] |}.

(** Array 0 holds two mappings, arrays 1 and 2 the filters of an analyzer,
    record 3 the parameters of the search method. *)
Definition sample_heap : Heap :=
  {| mappingArrays := fun l =>
       match l with
       | 0 => [ {| mappingField := "text"; dataType := "text"; filterable := true |};
                {| mappingField := "meta"; dataType := "no such type"; filterable := false |} ]
       | _ => []
       end;
     characterFilterArrays := fun l =>
       match l with 1 => [ "icu_normalizer" ] | _ => [] end;
     tokenFilterArrays := fun l =>
       match l with 2 => [ "kuromoji_baseform"; "ja_stop" ] | _ => [] end;
     records := fun l =>
       match l with
       | 3 => [ ("ef_construction", Js.JNumber (Js.of_Z 512)); ("m", Js.JNumber (Js.of_Z 16)) ]
       | _ => []
       end |}.

Definition sample_stack : Stack :=
  {| region := "us-east-1";
     providers := ∅;
     vectorIndexes := [];
     accessPolicies := [];
     customResources := [] |}.

Definition sample_world : World :=
  {| heap := sample_heap; stack := sample_stack |}.

(** Only the required properties are given. *)
Definition sample_props_minimal : VectorIndexProps :=
  {| collection := sample_collection;
     indexName := "idx";
     vectorField := "vec";
     vectorDimensions := Js.of_Z 1536;
     mappings := 0;
     analyzer := None;
     engine := None;
     spaceType := None;
     methodName := None;
     parameters := None;
     numberOfShards := None;
     efSearch := None;
     customSettings := None |}.

(** Every optional property is given, with a truthy value. *)
Definition sample_props_full : VectorIndexProps :=
  {| collection := sample_collection;
     indexName := "idx";
     vectorField := "vec";
     vectorDimensions := Js.of_Z (-4);
     mappings := 0;
     analyzer := Some {| characterFilters := 1; tokenizer := "kuromoji_tokenizer"; tokenFilters := 2 |};
     engine := Some "nmslib";
     spaceType := Some "cosinesimil";
     methodName := Some "ivf";
     parameters := Some 3;
     numberOfShards := Some (Js.of_Z 4);
     efSearch := Some (Js.of_Z 100);
     customSettings := Some 4 |}.

(** Every optional string is empty and every optional number is zero. *)
Definition sample_props_falsy : VectorIndexProps :=
  {| collection := sample_collection;
     indexName := "idx";
     vectorField := "vec";
     vectorDimensions := Js.of_Z 0;
     mappings := 5;
     analyzer := None;
     engine := Some EmptyString;
     spaceType := Some EmptyString;
     methodName := Some EmptyString;
     parameters := None;
     numberOfShards := Some (Js.of_Z 0);
     efSearch := Some (Js.of_Z 0);
     customSettings := None |}.

Definition sample_scope : Construct := ["App"; "Stack"].


(** The sample stack after a first index has been declared in it: the
    provider exists and its role carries the collection's policy. *)
Definition sample_world_later : World :=
  run (VectorIndex_constructor sample_scope "First" sample_props_minimal) sample_world.

End Sample.

(** ** Auxiliary notions *)

(** The head of a quoted string read back: the character an escape or a
    plain character stands for, and what follows it.  The closing quote and
    anything that is not an escape [quote_char] writes give [None]. *)
Definition unhex (c : ascii) : option N :=
  let n := N_of_ascii c in
  if ((48 <=? n) && (n <=? 57))%N then Some (n - 48)%N
  else if ((97 <=? n) && (n <=? 102))%N then Some (n - 87)%N
  else None.

Definition unquote_char (s : string) : option (ascii * string) :=
  match s with
  | EmptyString => None
  | String c r =>
      if Ascii.eqb c JSON.dquote then None
      else if Ascii.eqb c "\" then
        match r with
        | EmptyString => None
        | String t r' =>
            if Ascii.eqb t JSON.dquote then Some (JSON.dquote, r')
            else if Ascii.eqb t "\" then Some ("\"%char, r')
            else if Ascii.eqb t "b" then Some (ascii_of_N 8, r')
            else if Ascii.eqb t "t" then Some (ascii_of_N 9, r')
            else if Ascii.eqb t "n" then Some (ascii_of_N 10, r')
            else if Ascii.eqb t "f" then Some (ascii_of_N 12, r')
            else if Ascii.eqb t "r" then Some (ascii_of_N 13, r')
            else if Ascii.eqb t "u" then
              match r' with
              | String "0" (String "0" (String h (String l r''))) =>
                  match unhex h, unhex l with
                  | Some x, Some y => Some (ascii_of_N (16 * x + y), r'')
                  | _, _ => None
                  end
              | _ => None
              end
            else None
        end
      else Some (c, r)
  end.

Section Histories.
Context `{AnalysisPlugins} `{Host}.

(** The provider of this file, when the stack holds it, is held under its
    own name. *)
Definition provider_named (w : World) : Prop :=
  forall p, providers (stack w) !! "OpenSearchIndexCRProvider" = Some p ->
    CRProvider.id p = "OpenSearchIndexCRProvider".

Definition is_construction (c : Call) : bool :=
  match c with
  | NewVectorIndex _ _ _ => true
  | GetProvider _ => false
  end.

(** How many indexes a history declares. *)
Definition constructions (cs : list Call) : nat :=
  length (filter (fun c => is_construction c = true) cs).

End Histories.

(** * Properties *)

Section Properties.
Context `{AnalysisPlugins} `{Host}.
Import Js.

Implicit Types (w : World) (scope : Construct) (id : string) (props : VectorIndexProps).

Arguments Js.of_Z : simpl never.

(** ** JavaScript *)

Lemma or_None {A} `{Truthy A} (d : A) : (None ||| d) = d.
Proof. reflexivity. Qed.

Lemma or_truthy {A} `{Truthy A} (a d : A) : truthy a = true -> (Some a ||| d) = a.
Proof. unfold Js.or. intros ->. reflexivity. Qed.

Lemma or_falsy {A} `{Truthy A} (a d : A) : truthy a = false -> (Some a ||| d) = d.
Proof. unfold Js.or. intros ->. reflexivity. Qed.

Lemma string_truthy_iff (s : string) : truthy s = true <-> s <> EmptyString.
Proof. destruct s; cbv [truthy string_truthy]; split; intros; congruence. Qed.

Lemma number_falsy_iff (n : number) :
  truthy n = false <-> (exists s, n = S754_zero s) \/ n = NaN.
Proof.
  unfold NaN. destruct n; cbv [truthy number_truthy]; split; intros Hn;
    try reflexivity; try discriminate.
  - left. eexists. reflexivity.
  - destruct Hn as [[z Hz]|Hz]; discriminate.
  - right. reflexivity.
  - destruct Hn as [[z Hz]|Hz]; discriminate.
Qed.

(** [JSON.stringify] of an object and of an array. *)
Lemma stringify_object_eq nts (r : record) :
  JSON.stringify nts (JObject r) = Some (JSON.stringify_object nts r).
Proof.
  unfold JSON.stringify, JSON.stringify_object. simpl. do 4 f_equal.
  induction r as [|[k x] r IH]; simpl; [reflexivity|].
  unfold JSON.member at 1. simpl.
  destruct (JSON.serialize nts x); simpl; rewrite IH; reflexivity.
Qed.

Lemma stringify_array_eq nts (items : list value) :
  JSON.stringify nts (JArray items) = Some (JSON.stringify_array nts items).
Proof. reflexivity. Qed.

Lemma stringify_empty_object nts : JSON.stringify nts (JObject []) = Some "{}".
Proof. reflexivity. Qed.

(** ** Running the constructor *)

Lemma alter_snoc {A} (f : A -> A) (l : list A) (x : A) :
  alter f (length l) (l ++ [x]) = l ++ [f x].
Proof.
  induction l as [|y l IH]; simpl; [reflexivity|]. f_equal. exact IH.
Qed.

Lemma elem_of_Set_add {A} `{EqDecision A} (x y : A) (s : list A) :
  y ∈ Set_add x s <-> y = x \/ y ∈ s.
Proof.
  unfold Set_add. case_decide as Hx.
  - split; [auto|]. intros [->|Hy]; assumption.
  - rewrite elem_of_app, list_elem_of_singleton. tauto.
Qed.

Lemma Set_add_fresh {A} `{EqDecision A} (x : A) (s : list A) :
  x ∉ s -> Set_add x s = s ++ [x].
Proof. intros Hx. unfold Set_add. rewrite decide_False by exact Hx. reflexivity. Qed.

(** Runs the constructor on a world given by its parts, up to the one
    question it asks of the stack: whether the provider is there. *)
Ltac run_constructor w :=
  destruct w as [hp [rg ps vis aps crs]];
  unfold run, result, perform, VectorIndex_constructor, OpenSearchIndexCRProvider,
    buildCustomResourceProvider, Resource_new, Role_addManagedPolicy,
    CfnAccessPolicy_new, CustomResource_new, addDependency, Stack_region,
    stringify_or_empty, Array_map, modify_stack, gets, mbind, M_bind, mret, M_ret;
  cbn;
  destruct (ps !! "OpenSearchIndexCRProvider") as [existing|] eqn:Hprovider; cbn;
  rewrite ?alter_snoc.

(** The one custom resource the constructor declares. *)
Lemma constructor_customResource scope id props w :
  exists cr,
    customResources (stack (run (VectorIndex_constructor scope id props) w))
      = customResources (stack w) ++ [cr]
    /\ cdk.node cr = scope ++ [id] ++ ["VectorIndex"]
    /\ cdk.dependencies cr =
         Set_add (dataAccessPolicy (collection props))
           (Set_add (collectionNode (collection props))
              (Set_add (scope ++ [id] ++ ["ManageIndexPolicy"]) []))
    /\ cdk.properties (cdk.props cr) =
       {| Properties.CollectionName := collectionName (collection props);
          Properties.Endpoint :=
            collectionId (collection props) +:+ "." +:+ region (stack w) +:+ ".aoss.amazonaws.com";
          Properties.IndexName := indexName props;
          Properties.VectorField := vectorField props;
          Properties.VectorDimension := vectorDimensions props;
          Properties.Engine := engine props ||| "faiss";
          Properties.SpaceType := spaceType props ||| "l2";
          Properties.MethodName := methodName props ||| "hnsw";
          Properties.Parameters :=
            JSON.stringify_object Number_toString ((records (heap w) <$> parameters props) ||| []);
          Properties.NumberOfShards := numberOfShards props ||| of_Z 2;
          Properties.EfSearch := efSearch props ||| of_Z 512;
          Properties.CustomSettings :=
            JSON.stringify_object Number_toString ((records (heap w) <$> customSettings props) ||| []);
          Properties.MetadataManagement :=
            map (fun m => {| Properties.MappingField := mappingField m;
                             Properties.DataType := dataType m;
                             Properties.Filterable := filterable m |})
                (mappingArrays (heap w) (mappings props));
          Properties.Analyzer :=
            match analyzer props with
            | Some a => Some {| Properties.CharacterFilters := characterFilters a;
                                Properties.Tokenizer := tokenizer a;
                                Properties.TokenFilters := tokenFilters a |}
            | None => None
            end |}.
Proof.
  run_constructor w; (eexists; split; [reflexivity|]);
    rewrite <- !app_assoc; repeat split; reflexivity.
Qed.

(** The one access policy the constructor declares. *)
Lemma constructor_accessPolicy scope id props w :
  exists ap,
    accessPolicies (stack (run (VectorIndex_constructor scope id props) w))
      = accessPolicies (stack w) ++ [ap]
    /\ oss.node ap = scope ++ [id] ++ ["ManageIndexPolicy"]
    /\ oss.props ap =
       {| oss.name :=
            generatePhysicalNameV2 (scope ++ [id]) "ManageIndexPolicy"
              {| maxLength := 32; lower := true |};
          oss.type := "data";
          oss.policy := JSON.stringify_array Number_toString
            [ JObject
                [ ("Rules", JArray
                    [ JObject
                        [ ("Resource", JArray
                            [ JString ("index/" +:+ collectionName (collection props) +:+ "/*") ]);
                          ("Permission", JArray
                            [ JString "aoss:DescribeIndex";
                              JString "aoss:CreateIndex";
                              JString "aoss:DeleteIndex";
                              JString "aoss:UpdateIndex" ]);
                          ("ResourceType", JString "index") ];
                      JObject
                        [ ("Resource", JArray
                            [ JString ("collection/" +:+ collectionName (collection props)) ]);
                          ("Permission", JArray [ JString "aoss:DescribeCollectionItems" ]);
                          ("ResourceType", JString "collection") ] ]);
                  ("Principal", JArray
                    [ JString (iam.roleArn (CRProvider.role
                        (result (getProvider OpenSearchIndexCRProvider (scope ++ [id])) w))) ]);
                  ("Description", JString EmptyString) ] ] |}.
Proof.
  run_constructor w; (eexists; split; [reflexivity|]);
    rewrite <- !app_assoc; repeat split; reflexivity.
Qed.

(** The constructor leaves the caller's objects alone. *)
Lemma constructor_heap scope id props w :
  heap (run (VectorIndex_constructor scope id props) w) = heap w.
Proof. run_constructor w; reflexivity. Qed.

(** ** The payload of the custom resource *)

(** C1, as amended.  When engine, spaceType, methodName, parameters,
    numberOfShards, efSearch and customSettings are all omitted, the payload
    carries 'faiss', 'l2', 'hnsw', the serialization of the empty object, 2,
    512 and the serialization of the empty object.  A supplied value appears
    in its payload field when it is truthy: a non-empty string, a number
    other than 0, -0 and NaN, and any object (serialized) for parameters and
    customSettings. *)
Theorem C1_defaults_and_supplied_values scope id props w :
  exists cr,
    customResources (stack (run (VectorIndex_constructor scope id props) w))
      = customResources (stack w) ++ [cr]
    /\ let payload := cdk.properties (cdk.props cr) in
       (engine props = None -> spaceType props = None -> methodName props = None ->
        parameters props = None -> numberOfShards props = None ->
        efSearch props = None -> customSettings props = None ->
          Properties.Engine payload = "faiss"
          /\ Properties.SpaceType payload = "l2"
          /\ Properties.MethodName payload = "hnsw"
          /\ JSON.stringify Number_toString (JObject []) = Some (Properties.Parameters payload)
          /\ Properties.NumberOfShards payload = of_Z 2
          /\ Properties.EfSearch payload = of_Z 512
          /\ JSON.stringify Number_toString (JObject []) = Some (Properties.CustomSettings payload))
       /\ (forall v, engine props = Some v -> truthy v = true ->
             Properties.Engine payload = v)
       /\ (forall v, spaceType props = Some v -> truthy v = true ->
             Properties.SpaceType payload = v)
       /\ (forall v, methodName props = Some v -> truthy v = true ->
             Properties.MethodName payload = v)
       /\ (forall l, parameters props = Some l ->
             JSON.stringify Number_toString (JObject (records (heap w) l))
               = Some (Properties.Parameters payload))
       /\ (forall n, numberOfShards props = Some n -> truthy n = true ->
             Properties.NumberOfShards payload = n)
       /\ (forall n, efSearch props = Some n -> truthy n = true ->
             Properties.EfSearch payload = n)
       /\ (forall l, customSettings props = Some l ->
             JSON.stringify Number_toString (JObject (records (heap w) l))
               = Some (Properties.CustomSettings payload)).
Proof.
  destruct (constructor_customResource scope id props w) as (cr & Hcr & _ & _ & Hp).
  exists cr. split; [exact Hcr|]. cbn zeta. rewrite Hp. cbn [Properties.Engine
    Properties.SpaceType Properties.MethodName Properties.Parameters
    Properties.NumberOfShards Properties.EfSearch Properties.CustomSettings].
  split; [intros -> -> -> -> -> -> ->; repeat split|].
  split; [intros v -> Hv; apply or_truthy, Hv|].
  split; [intros v -> Hv; apply or_truthy, Hv|].
  split; [intros v -> Hv; apply or_truthy, Hv|].
  split; [intros l ->; apply stringify_object_eq|].
  split; [intros n -> Hn; apply or_truthy, Hn|].
  split; [intros n -> Hn; apply or_truthy, Hn|].
  intros l ->; apply stringify_object_eq.
Qed.

(** C9.  An explicitly supplied falsy value is replaced by the default:
    numberOfShards = 0 gives 2, efSearch = 0 gives 512, and an empty engine,
    spaceType or methodName gives 'faiss', 'l2' or 'hnsw'.  Zero is either
    of the two zeros of binary64. *)
Theorem C9_falsy_values_replaced scope id props w :
  exists cr,
    customResources (stack (run (VectorIndex_constructor scope id props) w))
      = customResources (stack w) ++ [cr]
    /\ let payload := cdk.properties (cdk.props cr) in
       (forall s, numberOfShards props = Some (S754_zero s) ->
          Properties.NumberOfShards payload = of_Z 2)
       /\ (forall s, efSearch props = Some (S754_zero s) ->
          Properties.EfSearch payload = of_Z 512)
       /\ (engine props = Some EmptyString -> Properties.Engine payload = "faiss")
       /\ (spaceType props = Some EmptyString -> Properties.SpaceType payload = "l2")
       /\ (methodName props = Some EmptyString -> Properties.MethodName payload = "hnsw").
Proof.
  destruct (constructor_customResource scope id props w) as (cr & Hcr & _ & _ & Hp).
  exists cr. split; [exact Hcr|]. cbn zeta. rewrite Hp. cbn [Properties.Engine
    Properties.SpaceType Properties.MethodName Properties.NumberOfShards
    Properties.EfSearch].
  split; [intros s ->; reflexivity|].
  split; [intros s ->; reflexivity|].
  split; [intros ->; reflexivity|].
  split; intros ->; reflexivity.
Qed.

(** C4.  Whatever the value of vectorDimensions and whatever the mappings
    array holds, the constructor returns: VectorDimension is vectorDimensions
    unchanged, and MetadataManagement is the mappings array mapped element by
    element, in order and with the same length, to
    {MappingField, DataType, Filterable}. *)
Theorem C4_dimensions_and_mappings_unvalidated scope id props w :
  exists this w' cr,
    VectorIndex_constructor scope id props w = (this, w')
    /\ customResources (stack w') = customResources (stack w) ++ [cr]
    /\ Properties.VectorDimension (cdk.properties (cdk.props cr)) = vectorDimensions props
    /\ Properties.MetadataManagement (cdk.properties (cdk.props cr)) =
         map (fun m => {| Properties.MappingField := mappingField m;
                          Properties.DataType := dataType m;
                          Properties.Filterable := filterable m |})
             (mappingArrays (heap w) (mappings props))
    /\ length (Properties.MetadataManagement (cdk.properties (cdk.props cr)))
         = length (mappingArrays (heap w) (mappings props)).
Proof.
  destruct (constructor_customResource scope id props w) as (cr & Hcr & _ & _ & Hp).
  exists (result (VectorIndex_constructor scope id props) w),
         (run (VectorIndex_constructor scope id props) w), cr.
  split; [unfold result, run; destruct (VectorIndex_constructor _ _ _ _); reflexivity|].
  split; [exact Hcr|]. rewrite Hp. cbn [Properties.VectorDimension Properties.MetadataManagement].
  rewrite length_map. repeat split.
Qed.

(** C5.  With an analyzer, the Analyzer of the payload is
    {CharacterFilters, Tokenizer, TokenFilters}: the two arrays are the very
    arrays of props.analyzer, which hold after construction what they held
    before, and the tokenizer is props.analyzer.tokenizer.  Without one, the
    Analyzer of the payload is undefined. *)
Theorem C5_analyzer scope id props w :
  exists cr,
    customResources (stack (run (VectorIndex_constructor scope id props) w))
      = customResources (stack w) ++ [cr]
    /\ let payload := cdk.properties (cdk.props cr) in
       let w' := run (VectorIndex_constructor scope id props) w in
       (forall a, analyzer props = Some a ->
          exists ap,
            Properties.Analyzer payload = Some ap
            /\ Properties.CharacterFilters ap = characterFilters a
            /\ characterFilterArrays (heap w') (Properties.CharacterFilters ap)
                 = characterFilterArrays (heap w) (characterFilters a)
            /\ Properties.Tokenizer ap = tokenizer a
            /\ Properties.TokenFilters ap = tokenFilters a
            /\ tokenFilterArrays (heap w') (Properties.TokenFilters ap)
                 = tokenFilterArrays (heap w) (tokenFilters a))
       /\ (analyzer props = None -> Properties.Analyzer payload = None).
Proof.
  destruct (constructor_customResource scope id props w) as (cr & Hcr & _ & _ & Hp).
  exists cr. split; [exact Hcr|]. cbn zeta. rewrite Hp, constructor_heap.
  cbn [Properties.Analyzer]. split.
  - intros a ->. eexists. split; [reflexivity|]. repeat split.
  - intros ->. reflexivity.
Qed.

(** ** The caller's objects *)

(** C7.  The constructor changes nothing that is reachable from props: the
    props are a value with readonly fields, and the arrays and records they
    refer to hold after construction what they held before. *)
Theorem C7_props_not_mutated scope id props w :
  let w' := run (VectorIndex_constructor scope id props) w in
  heap w' = heap w
  /\ mappingArrays (heap w') (mappings props) = mappingArrays (heap w) (mappings props)
  /\ (forall l, characterFilterArrays (heap w') l = characterFilterArrays (heap w) l)
  /\ (forall l, tokenFilterArrays (heap w') l = tokenFilterArrays (heap w) l)
  /\ (forall l, records (heap w') l = records (heap w) l).
Proof.
  cbn zeta. rewrite constructor_heap. repeat split.
Qed.

(** ** Dependencies and the access policy *)

(** C2.  The custom resource the constructor declares depends on the
    manage-index access policy it declares, on the collection and on the
    collection's data access policy, and on nothing else: three edges, the
    three constructs being distinct. *)
Theorem C2_dependency_edges scope id props w :
  let manageIndexPolicy := scope ++ [id] ++ ["ManageIndexPolicy"] in
  let c := collection props in
  exists cr ap,
    customResources (stack (run (VectorIndex_constructor scope id props) w))
      = customResources (stack w) ++ [cr]
    /\ accessPolicies (stack (run (VectorIndex_constructor scope id props) w))
      = accessPolicies (stack w) ++ [ap]
    /\ cdk.node cr = scope ++ [id] ++ ["VectorIndex"]
    /\ oss.node ap = manageIndexPolicy
    /\ (forall d, d ∈ cdk.dependencies cr <->
           d = manageIndexPolicy \/ d = collectionNode c \/ d = dataAccessPolicy c)
    /\ (collectionNode c <> manageIndexPolicy ->
        dataAccessPolicy c <> manageIndexPolicy ->
        dataAccessPolicy c <> collectionNode c ->
          cdk.dependencies cr = [manageIndexPolicy; collectionNode c; dataAccessPolicy c]).
Proof.
  cbn zeta.
  destruct (constructor_customResource scope id props w) as (cr & Hcr & Hnode & Hdeps & _).
  destruct (constructor_accessPolicy scope id props w) as (ap & Hap & Hapnode & _).
  exists cr, ap. rewrite Hdeps. repeat (split; [assumption|]). split.
  - intros d. rewrite !elem_of_Set_add, elem_of_nil. tauto.
  - intros Hc Hd Hdc.
    rewrite (Set_add_fresh (scope ++ [id] ++ ["ManageIndexPolicy"])) by apply not_elem_of_nil.
    change ([] ++ [scope ++ [id] ++ ["ManageIndexPolicy"]])
      with [scope ++ [id] ++ ["ManageIndexPolicy"]].
    rewrite (Set_add_fresh (collectionNode (collection props)))
      by (rewrite list_elem_of_singleton; exact Hc).
    rewrite Set_add_fresh; [reflexivity|].
    cbn [app]. rewrite !elem_of_cons, elem_of_nil. tauto.
Qed.

(** C3.  The constructor declares exactly one access policy.  Its type is
    'data' and its policy is the serialization of a one-statement document
    whose only principal is the role ARN of the custom-resource provider and
    whose rules grant aoss:DescribeIndex, aoss:CreateIndex, aoss:DeleteIndex
    and aoss:UpdateIndex on 'index/<collectionName>/*' (ResourceType
    'index') and aoss:DescribeCollectionItems on 'collection/<collectionName>'
    (ResourceType 'collection'). *)
Theorem C3_manage_index_policy scope id props w :
  let crProvider := result (getProvider OpenSearchIndexCRProvider (scope ++ [id])) w in
  let collectionName := collectionName (collection props) in
  exists ap,
    accessPolicies (stack (run (VectorIndex_constructor scope id props) w))
      = accessPolicies (stack w) ++ [ap]
    /\ oss.type (oss.props ap) = "data"
    /\ JSON.stringify Number_toString
         (JArray
            [ JObject
                [ ("Rules", JArray
                    [ JObject
                        [ ("Resource", JArray [ JString ("index/" +:+ collectionName +:+ "/*") ]);
                          ("Permission", JArray
                            [ JString "aoss:DescribeIndex";
                              JString "aoss:CreateIndex";
                              JString "aoss:DeleteIndex";
                              JString "aoss:UpdateIndex" ]);
                          ("ResourceType", JString "index") ];
                      JObject
                        [ ("Resource", JArray [ JString ("collection/" +:+ collectionName) ]);
                          ("Permission", JArray [ JString "aoss:DescribeCollectionItems" ]);
                          ("ResourceType", JString "collection") ] ]);
                  ("Principal", JArray [ JString (iam.roleArn (CRProvider.role crProvider)) ]);
                  ("Description", JString EmptyString) ] ])
       = Some (oss.policy (oss.props ap)).
Proof.
  cbn zeta.
  destruct (constructor_accessPolicy scope id props w) as (ap & Hap & _ & Hprops).
  exists ap. rewrite Hprops. split; [exact Hap|]. split; [reflexivity|].
  apply stringify_array_eq.
Qed.

(** ** The provider *)

Lemma getProvider_existing (P : CRProviderProps) scope w (p : CRProvider.t) :
  providers (stack w) !! providerName P = Some p ->
  getProvider (buildCustomResourceProvider P) scope w = (p, w).
Proof. intros Hp. cbn. rewrite Hp. reflexivity. Qed.

Lemma getProvider_holds (P : CRProviderProps) scope w :
  providers (stack (run (getProvider (buildCustomResourceProvider P) scope) w))
    !! providerName P
  = Some (result (getProvider (buildCustomResourceProvider P) scope) w).
Proof.
  unfold run, result. cbn.
  destruct (providers (stack w) !! providerName P) eqn:Hp; cbn.
  - exact Hp.
  - apply lookup_insert_eq.
Qed.

Lemma same_refl (p : CRProvider.t) : CRProvider.same p p.
Proof. repeat split. Qed.

Lemma same_trans (p q r : CRProvider.t) :
  CRProvider.same p q -> CRProvider.same q r -> CRProvider.same p r.
Proof.
  intros (? & ? & ? & ?) (? & ? & ? & ?). repeat split; etransitivity; eassumption.
Qed.

Lemma same_addManagedPolicy (policy : Construct) (p : CRProvider.t) :
  CRProvider.same p (CRProvider.addManagedPolicy policy p).
Proof. repeat split. Qed.

Create HintDb provider.
#[local] Hint Resolve same_refl same_addManagedPolicy : provider.

(** No operation of this file replaces the provider a stack holds. *)
Lemma perform_provider (c : Call) w (p : CRProvider.t) :
  providers (stack w) !! "OpenSearchIndexCRProvider" = Some p ->
  exists q,
    providers (stack (run (perform c) w)) !! "OpenSearchIndexCRProvider" = Some q
    /\ CRProvider.same p q.
Proof.
  intros Hp. destruct c as [scope id props|scope].
  - revert Hp. run_constructor w; intros Hp; cbn in Hp; [|congruence].
    assert (existing = p) as -> by congruence.
    rewrite lookup_alter. case_decide as Hid.
    + rewrite Hid, Hprovider. eexists. split; [reflexivity|]. auto with provider.
    + exists p. split; [exact Hprovider|]. auto with provider.
  - exists p. split; [|auto with provider].
    unfold run, perform, mbind, M_bind, OpenSearchIndexCRProvider.
    rewrite (getProvider_existing _ scope w p) by exact Hp. exact Hp.
Qed.

Lemma perform_all_provider (cs : list Call) w (p : CRProvider.t) :
  providers (stack w) !! "OpenSearchIndexCRProvider" = Some p ->
  exists q,
    providers (stack (perform_all cs w)) !! "OpenSearchIndexCRProvider" = Some q
    /\ CRProvider.same p q.
Proof.
  revert w p. induction cs as [|c cs IH]; intros w p Hp; cbn [perform_all].
  - exists p. split; [exact Hp|]. auto with provider.
  - destruct (perform_provider c w p Hp) as (q & Hq & Hpq).
    destruct (IH _ q Hq) as (r & Hr & Hqr).
    exists r. split; [exact Hr|]. eapply same_trans; eassumption.
Qed.

(** C6.  [getProvider] creates the provider, with its function, when the
    stack holds none, and only then; the stack holds what it returned; the
    next call, from any scope, returns that provider and leaves the stack as
    it is; and after any further operations of this file the stack still
    holds that provider, with whatever policies were attached to its role
    meanwhile, and [getProvider] returns it without creating another. *)
Theorem C6_provider_singleton (scope scope' : Construct) (cs : list Call) w :
  let p := result (getProvider OpenSearchIndexCRProvider scope) w in
  let w1 := run (getProvider OpenSearchIndexCRProvider scope) w in
  (providers (stack w) !! "OpenSearchIndexCRProvider" = None ->
     providers (stack w1) = <["OpenSearchIndexCRProvider" := p]> (providers (stack w))
     /\ CRProvider.onEventHandler p =
        {| lambda.code :=
             path_join __dirname "../../../lambda/opensearch-serverless-custom-resources/index.ts";
           lambda.handler := "handler";
           lambda.runtime := lambda.NODEJS_18_X |})
  /\ (forall q, providers (stack w) !! "OpenSearchIndexCRProvider" = Some q ->
        p = q /\ w1 = w)
  /\ providers (stack w1) !! "OpenSearchIndexCRProvider" = Some p
  /\ getProvider OpenSearchIndexCRProvider scope' w1 = (p, w1)
  /\ (let w2 := perform_all cs w1 in
      exists q, getProvider OpenSearchIndexCRProvider scope' w2 = (q, w2)
                /\ CRProvider.same p q).
Proof.
  cbn zeta.
  pose proof (getProvider_holds
    {| providerName := "OpenSearchIndexCRProvider";
       codePath := path_join __dirname "../../../lambda/opensearch-serverless-custom-resources/index.ts";
       handler := "handler";
       runtime := lambda.NODEJS_18_X |} scope w) as Hholds.
  fold OpenSearchIndexCRProvider in Hholds. cbn [providerName] in Hholds.
  split; [|split; [|split; [exact Hholds|split]]].
  - intros Hnone. unfold run, result. cbn. rewrite Hnone. cbn. split; reflexivity.
  - intros q Hq. unfold run, result, OpenSearchIndexCRProvider.
    rewrite (getProvider_existing _ scope w q) by exact Hq. split; reflexivity.
  - apply (getProvider_existing _ scope'). exact Hholds.
  - destruct (perform_all_provider cs _ _ Hholds) as (q & Hq & Hpq).
    exists q. split; [|exact Hpq].
    apply (getProvider_existing _ scope'). exact Hq.
Qed.

(** ** The role of the provider *)

(** In a stack whose provider, if it has one, was created by the factory,
    [getProvider] returns a provider with the role the factory gives it. *)
Lemma provider_role_reachable (cs : list Call) scope w :
  providers (stack w) !! "OpenSearchIndexCRProvider" = None ->
  iam.roleArn (CRProvider.role
      (result (getProvider OpenSearchIndexCRProvider scope) (perform_all cs w)))
    = iam.roleArn (CRProvider.role
      (result (getProvider OpenSearchIndexCRProvider scope) w)).
Proof.
  intros Hnone. destruct cs as [|c cs]; [reflexivity|]. cbn [perform_all].
  assert (exists p, providers (stack (run (perform c) w)) !! "OpenSearchIndexCRProvider" = Some p
                    /\ CRProvider.same (result (getProvider OpenSearchIndexCRProvider scope) w) p)
    as (p & Hp & Hsame).
  { destruct c as [scope' id props|scope'].
    - revert Hnone. run_constructor w; intros Hnone; cbn in Hnone; [congruence|].
      rewrite lookup_alter, decide_True by reflexivity.
      rewrite lookup_insert_eq. eexists. split; [reflexivity|]. repeat split.
    - revert Hnone. destruct w as [hp [rg ps vis aps crs]]. cbn. intros Hnone.
      unfold run, result, perform, mbind, M_bind. cbn. rewrite Hnone. cbn.
      rewrite lookup_insert_eq. eexists. split; [reflexivity|]. repeat split. }
  destruct (perform_all_provider cs _ _ Hp) as (q & Hq & Hpq).
  unfold result at 1, OpenSearchIndexCRProvider.
  rewrite (getProvider_existing _ scope _ q) by exact Hq.
  destruct (same_trans _ _ _ Hsame Hpq) as (_ & Harn & _). symmetry. exact Harn.
Qed.

(** ** The instance *)

Lemma perform_vectorIndexes (c : Call) w :
  exists added,
    vectorIndexes (stack (run (perform c) w)) = vectorIndexes (stack w) ++ added.
Proof.
  destruct c as [scope id props|scope].
  - run_constructor w; eexists; reflexivity.
  - exists []. rewrite app_nil_r.
    destruct w as [hp [rg ps vis aps crs]].
    unfold run, perform, mbind, M_bind. cbn.
    destruct (ps !! "OpenSearchIndexCRProvider"); reflexivity.
Qed.

Lemma perform_all_vectorIndexes (cs : list Call) w :
  exists added,
    vectorIndexes (stack (perform_all cs w)) = vectorIndexes (stack w) ++ added.
Proof.
  revert w. induction cs as [|c cs IH]; intros w; cbn [perform_all].
  - exists []. rewrite app_nil_r. reflexivity.
  - destruct (perform_vectorIndexes c w) as (l1 & H1).
    destruct (IH (run (perform c) w)) as (l2 & H2).
    exists (l1 ++ l2). rewrite H2, H1, app_assoc. reflexivity.
Qed.

(** C10.  The instance the constructor returns carries indexName,
    vectorField and vectorDimensions of the props; it is the one instance
    added to the stack, and whatever operations of this file follow, the
    stack holds it unchanged at its place. *)
Theorem C10_instance_fields scope id props (cs : list Call) w :
  let this := result (VectorIndex_constructor scope id props) w in
  let w' := run (VectorIndex_constructor scope id props) w in
  VectorIndex.indexName this = indexName props
  /\ VectorIndex.vectorField this = vectorField props
  /\ VectorIndex.vectorDimensions this = vectorDimensions props
  /\ vectorIndexes (stack w') = vectorIndexes (stack w) ++ [this]
  /\ vectorIndexes (stack (perform_all cs w')) !! length (vectorIndexes (stack w))
       = Some this.
Proof.
  cbn zeta.
  assert (VectorIndex.indexName (result (VectorIndex_constructor scope id props) w)
            = indexName props
          /\ VectorIndex.vectorField (result (VectorIndex_constructor scope id props) w)
            = vectorField props
          /\ VectorIndex.vectorDimensions (result (VectorIndex_constructor scope id props) w)
            = vectorDimensions props
          /\ vectorIndexes (stack (run (VectorIndex_constructor scope id props) w))
            = vectorIndexes (stack w) ++ [result (VectorIndex_constructor scope id props) w])
    as (Hname & Hfield & Hdim & Hadded).
  { clear cs. run_constructor w; repeat split. }
  repeat (split; [assumption|]).
  destruct (perform_all_vectorIndexes cs (run (VectorIndex_constructor scope id props) w))
    as (added & Hlater).
  rewrite Hlater, Hadded, <- app_assoc.
  rewrite lookup_app_r by reflexivity.
  rewrite Nat.sub_diag. reflexivity.
Qed.

(** ** Quoting *)

Lemma string_app_assoc (a b c : string) : (a +:+ b) +:+ c = a +:+ (b +:+ c).
Proof.
  induction a as [|x a IH]; [reflexivity|].
  change (String x ((a +:+ b) +:+ c) = String x (a +:+ (b +:+ c))).
  rewrite IH. reflexivity.
Qed.

Lemma unquote_quote_char (c : ascii) (r : string) :
  unquote_char (JSON.quote_char c +:+ r) = Some (c, r).
Proof. destruct c as [[] [] [] [] [] [] [] []]; reflexivity. Qed.

Lemma quote_body_inj (s1 s2 r1 r2 : string) :
  JSON.quote_body s1 +:+ String JSON.dquote r1 = JSON.quote_body s2 +:+ String JSON.dquote r2 ->
  s1 = s2 /\ r1 = r2.
Proof.
  revert s2. induction s1 as [|c1 s1 IH]; intros [|c2 s2] Heq; cbn [JSON.quote_body] in Heq.
  - injection Heq as ->. split; reflexivity.
  - rewrite string_app_assoc in Heq. apply (f_equal unquote_char) in Heq.
    rewrite unquote_quote_char in Heq. discriminate Heq.
  - rewrite string_app_assoc in Heq. apply (f_equal unquote_char) in Heq.
    rewrite unquote_quote_char in Heq. discriminate Heq.
  - rewrite !string_app_assoc in Heq. apply (f_equal unquote_char) in Heq.
    rewrite !unquote_quote_char in Heq. injection Heq as -> Heq.
    destruct (IH _ Heq) as [-> ->]. split; reflexivity.
Qed.

Lemma quote_inj (s1 s2 r1 r2 : string) :
  JSON.quote s1 +:+ r1 = JSON.quote s2 +:+ r2 -> s1 = s2 /\ r1 = r2.
Proof.
  unfold JSON.quote. intros Heq.
  change (String JSON.dquote ((JSON.quote_body s1 +:+ String JSON.dquote EmptyString) +:+ r1)
          = String JSON.dquote ((JSON.quote_body s2 +:+ String JSON.dquote EmptyString) +:+ r2))
    in Heq.
  injection Heq as Heq. rewrite !string_app_assoc in Heq. apply quote_body_inj. exact Heq.
Qed.

Lemma string_app_inv_head (a x y : string) : a +:+ x = a +:+ y -> x = y.
Proof.
  induction a as [|c a IH]; [intros Heq; exact Heq|].
  change (String c (a +:+ x) = String c (a +:+ y) -> x = y).
  intros Heq. injection Heq as Heq. apply IH. exact Heq.
Qed.

Lemma string_app_length (a b : string) :
  String.length (a +:+ b) = String.length a + String.length b.
Proof.
  induction a as [|c a IH]; [reflexivity|].
  change (S (String.length (a +:+ b)) = S (String.length a + String.length b)).
  rewrite IH. reflexivity.
Qed.

Lemma string_app_inv_tail (a b t : string) : a +:+ t = b +:+ t -> a = b.
Proof.
  revert b. induction a as [|c a IH]; intros [|d b] Heq.
  - reflexivity.
  - apply (f_equal String.length) in Heq.
    change (String.length t = S (String.length (b +:+ t))) in Heq.
    rewrite string_app_length in Heq. lia.
  - apply (f_equal String.length) in Heq.
    change (S (String.length (a +:+ t)) = String.length t) in Heq.
    rewrite string_app_length in Heq. lia.
  - change (String c (a +:+ t) = String d (b +:+ t)) in Heq.
    injection Heq as -> Heq. f_equal. apply IH. exact Heq.
Qed.

(** Strips what two texts start with in common, up to a quoted string. *)
Ltac strip_prefix H :=
  repeat (apply string_app_inv_head in H).

Lemma policy_text_inj nts (n1 a1 n2 a2 : string) :
  JSON.stringify_array nts
    [ JObject
        [ ("Rules", JArray
            [ JObject
                [ ("Resource", JArray [ JString ("index/" +:+ n1 +:+ "/*") ]);
                  ("Permission", JArray
                    [ JString "aoss:DescribeIndex";
                      JString "aoss:CreateIndex";
                      JString "aoss:DeleteIndex";
                      JString "aoss:UpdateIndex" ]);
                  ("ResourceType", JString "index") ];
              JObject
                [ ("Resource", JArray [ JString ("collection/" +:+ n1) ]);
                  ("Permission", JArray [ JString "aoss:DescribeCollectionItems" ]);
                  ("ResourceType", JString "collection") ] ]);
          ("Principal", JArray [ JString a1 ]);
          ("Description", JString EmptyString) ] ]
  = JSON.stringify_array nts
    [ JObject
        [ ("Rules", JArray
            [ JObject
                [ ("Resource", JArray [ JString ("index/" +:+ n2 +:+ "/*") ]);
                  ("Permission", JArray
                    [ JString "aoss:DescribeIndex";
                      JString "aoss:CreateIndex";
                      JString "aoss:DeleteIndex";
                      JString "aoss:UpdateIndex" ]);
                  ("ResourceType", JString "index") ];
              JObject
                [ ("Resource", JArray [ JString ("collection/" +:+ n2) ]);
                  ("Permission", JArray [ JString "aoss:DescribeCollectionItems" ]);
                  ("ResourceType", JString "collection") ] ]);
          ("Principal", JArray [ JString a2 ]);
          ("Description", JString EmptyString) ] ]
  -> n1 = n2 /\ a1 = a2.
Proof.
  unfold JSON.stringify_array. cbn. intros Heq.
  rewrite !string_app_assoc in Heq. strip_prefix Heq.
  apply quote_inj in Heq as [Hname Heq].
  apply string_app_inv_head, string_app_inv_tail in Hname. subst n2.
  strip_prefix Heq.
  apply quote_inj in Heq as [-> _]. split; reflexivity.
Qed.

(** ** The provider's role *)

Lemma Set_add_extends {A} `{EqDecision A} (x : A) (s : list A) :
  exists added, Set_add x s = s ++ added.
Proof.
  unfold Set_add. case_decide.
  - exists []. rewrite app_nil_r. reflexivity.
  - eexists. reflexivity.
Qed.

Lemma NoDup_Set_add {A} `{EqDecision A} (x : A) (s : list A) :
  NoDup s -> NoDup (Set_add x s).
Proof.
  intros Hs. unfold Set_add. case_decide as Hx; [exact Hs|].
  apply NoDup_app. split; [exact Hs|]. split.
  - intros y Hy Hy'. apply list_elem_of_singleton in Hy'. subst y. contradiction.
  - apply NoDup_singleton.
Qed.

Lemma Set_add_cases {A} `{EqDecision A} (x : A) (s : list A) :
  ((x ∈ s) /\ Set_add x s = s) \/ ((x ∉ s) /\ Set_add x s = s ++ [x]).
Proof. unfold Set_add. case_decide; [left|right]; split; auto. Qed.

Lemma snoc_inj {A} (l : list A) (a b : A) : l ++ [a] = l ++ [b] -> a = b.
Proof. intros Heq. apply app_inv_head in Heq. injection Heq as ->. reflexivity. Qed.

(** The provider the stack holds after a construction is the one the
    constructor obtained, with the collection's policy on its role when the
    stack holds it under its own name. *)
Lemma constructor_provider scope id props w :
  let p := result (getProvider OpenSearchIndexCRProvider (scope ++ [id])) w in
  exists q,
    providers (stack (run (VectorIndex_constructor scope id props) w))
      !! "OpenSearchIndexCRProvider" = Some q
    /\ CRProvider.same p q
    /\ (provider_named w ->
          q = CRProvider.addManagedPolicy (aossPolicy (collection props)) p).
Proof.
  unfold provider_named. run_constructor w; rewrite lookup_alter; case_decide as Hid.
  - rewrite Hid, Hprovider. eexists. split; [reflexivity|]. split; [auto with provider|].
    reflexivity.
  - exists existing. split; [exact Hprovider|]. split; [auto with provider|].
    intros Hnamed. contradiction Hid. apply Hnamed. reflexivity.
  - rewrite lookup_insert_eq. eexists. split; [reflexivity|].
    split; [auto with provider|]. reflexivity.
  - contradiction Hid. reflexivity.
Qed.

Lemma constructor_serviceToken scope id props w :
  exists cr,
    customResources (stack (run (VectorIndex_constructor scope id props) w))
      = customResources (stack w) ++ [cr]
    /\ cdk.serviceToken (cdk.props cr) =
       CRProvider.serviceToken
         (result (getProvider OpenSearchIndexCRProvider (scope ++ [id])) w)
    /\ cdk.resourceType (cdk.props cr) = "Custom::OpenSearchIndex".
Proof.
  run_constructor w; (eexists; split; [reflexivity|]); split; reflexivity.
Qed.

(** The invariant of [provider_named]. *)
Lemma provider_named_fresh w :
  providers (stack w) !! "OpenSearchIndexCRProvider" = None -> provider_named w.
Proof. intros Hnone p Hp. congruence. Qed.

Lemma provider_named_perform (c : Call) w :
  provider_named w -> provider_named (run (perform c) w).
Proof.
  intros Hnamed q Hq. destruct c as [scope id props|scope].
  - destruct (constructor_provider scope id props w) as (q' & Hq' & (Hid & _) & _).
    unfold run, perform, mbind, M_bind in Hq.
    unfold run in Hq'.
    destruct (VectorIndex_constructor scope id props w) as [this w'].
    cbn in Hq, Hq'. assert (q' = q) as -> by congruence.
    rewrite <- Hid. unfold result, OpenSearchIndexCRProvider. cbn.
    destruct (providers (stack w) !! "OpenSearchIndexCRProvider") as [p|] eqn:Hp; cbn.
    + apply Hnamed. exact Hp.
    + reflexivity.
  - revert Hq. unfold run, perform, mbind, M_bind, OpenSearchIndexCRProvider. cbn.
    destruct (providers (stack w) !! "OpenSearchIndexCRProvider") as [p|] eqn:Hp; cbn.
    + intros Hq. apply Hnamed. congruence.
    + rewrite lookup_insert_eq. intros Hq. injection Hq as <-. reflexivity.
Qed.

Lemma provider_named_perform_all (cs : list Call) w :
  provider_named w -> provider_named (perform_all cs w).
Proof.
  revert w. induction cs as [|c cs IH]; intros w Hnamed; cbn [perform_all].
  - exact Hnamed.
  - apply IH, provider_named_perform, Hnamed.
Qed.

(** X1.  After a construction the role of the stack's provider carries the
    managed policy of the collection. *)
Theorem constructor_attaches_policy scope id props w :
  provider_named w ->
  exists q,
    providers (stack (run (VectorIndex_constructor scope id props) w))
      !! "OpenSearchIndexCRProvider" = Some q
    /\ aossPolicy (collection props) ∈ iam.managedPolicies (CRProvider.role q).
Proof.
  intros Hnamed.
  destruct (constructor_provider scope id props w) as (q & Hq & _ & Hattached).
  exists q. split; [exact Hq|]. rewrite (Hattached Hnamed). cbn.
  apply elem_of_Set_add. left. reflexivity.
Qed.

(** X2.  When the role of the stack's provider already carries the managed
    policy of the collection, a construction leaves the providers of the
    stack as they are: the policy is attached once, however many indexes are
    declared on the collection. *)
Theorem policy_attached_once scope id props w (p : CRProvider.t) :
  provider_named w ->
  providers (stack w) !! "OpenSearchIndexCRProvider" = Some p ->
  aossPolicy (collection props) ∈ iam.managedPolicies (CRProvider.role p) ->
  providers (stack (run (VectorIndex_constructor scope id props) w))
    = providers (stack w).
Proof.
  intros Hnamed Hp Hin. revert Hnamed Hp. unfold provider_named.
  run_constructor w; intros Hnamed Hp; cbn in Hnamed, Hp; [|congruence].
  assert (existing = p) as -> by congruence.
  apply alter_id. intros q Hq.
  rewrite (Hnamed p eq_refl) in Hq. assert (q = p) as -> by congruence.
  destruct p as [pid [arn policies] token fn]. cbn in Hin |- *.
  unfold CRProvider.addManagedPolicy, iam.addManagedPolicy, Set_add. cbn.
  rewrite decide_True by exact Hin. reflexivity.
Qed.

Lemma perform_policies (c : Call) w (p : CRProvider.t) :
  providers (stack w) !! "OpenSearchIndexCRProvider" = Some p ->
  exists q added,
    providers (stack (run (perform c) w)) !! "OpenSearchIndexCRProvider" = Some q
    /\ iam.managedPolicies (CRProvider.role q)
       = iam.managedPolicies (CRProvider.role p) ++ added
    /\ (NoDup (iam.managedPolicies (CRProvider.role p)) ->
        NoDup (iam.managedPolicies (CRProvider.role q))).
Proof.
  intros Hp. destruct c as [scope id props|scope].
  - revert Hp. run_constructor w; intros Hp; cbn in Hp; [|congruence].
    assert (existing = p) as -> by congruence.
    rewrite lookup_alter. case_decide as Hid.
    + rewrite Hid, Hprovider. cbn.
      destruct (Set_add_extends (aossPolicy (collection props))
                  (iam.managedPolicies (CRProvider.role p))) as (added & Hadded).
      eexists _, added. split; [reflexivity|]. cbn. split; [exact Hadded|].
      apply NoDup_Set_add.
    + exists p, []. rewrite app_nil_r. repeat split; auto.
  - exists p, []. rewrite app_nil_r. split; [|split; auto].
    unfold run, perform, mbind, M_bind, OpenSearchIndexCRProvider.
    rewrite (getProvider_existing _ scope w p) by exact Hp. exact Hp.
Qed.

(** X3.  Policies are only ever added to the role of the provider: what it
    carries stays, in order, through any history, and no policy comes to be
    there twice. *)
Theorem managed_policies_accumulate (cs : list Call) w (p : CRProvider.t) :
  providers (stack w) !! "OpenSearchIndexCRProvider" = Some p ->
  exists q added,
    providers (stack (perform_all cs w)) !! "OpenSearchIndexCRProvider" = Some q
    /\ iam.managedPolicies (CRProvider.role q)
       = iam.managedPolicies (CRProvider.role p) ++ added
    /\ (NoDup (iam.managedPolicies (CRProvider.role p)) ->
        NoDup (iam.managedPolicies (CRProvider.role q))).
Proof.
  revert w p. induction cs as [|c cs IH]; intros w p Hp; cbn [perform_all].
  - exists p, []. rewrite app_nil_r. repeat split; auto.
  - destruct (perform_policies c w p Hp) as (q & l1 & Hq & Hl1 & Hnd1).
    destruct (IH _ q Hq) as (r & l2 & Hr & Hl2 & Hnd2).
    exists r, (l1 ++ l2). split; [exact Hr|]. split.
    + rewrite Hl2, Hl1, app_assoc. reflexivity.
    + intros Hnd. apply Hnd2, Hnd1, Hnd.
Qed.


(** ** Histories *)

Lemma constructions_cons (c : Call) (cs : list Call) :
  constructions (c :: cs) = (if is_construction c then 1 else 0) + constructions cs.
Proof.
  unfold constructions. rewrite filter_cons.
  destruct (is_construction c); case_decide; try congruence; reflexivity.
Qed.

Lemma perform_declarations (c : Call) w :
  exists vis aps crs,
    vectorIndexes (stack (run (perform c) w)) = vectorIndexes (stack w) ++ vis
    /\ accessPolicies (stack (run (perform c) w)) = accessPolicies (stack w) ++ aps
    /\ customResources (stack (run (perform c) w)) = customResources (stack w) ++ crs
    /\ length vis = (if is_construction c then 1 else 0)
    /\ length aps = (if is_construction c then 1 else 0)
    /\ length crs = (if is_construction c then 1 else 0).
Proof.
  destruct c as [scope id props|scope].
  - run_constructor w; eexists [_], [_], [_]; repeat split.
  - exists [], [], []. rewrite !app_nil_r.
    destruct w as [hp [rg ps vis aps crs]].
    unfold run, perform, mbind, M_bind. cbn.
    destruct (ps !! "OpenSearchIndexCRProvider"); repeat split.
Qed.

Lemma perform_frame (c : Call) w :
  region (stack (run (perform c) w)) = region (stack w)
  /\ heap (run (perform c) w) = heap w
  /\ dom (providers (stack (run (perform c) w)))
       ⊆ {[ "OpenSearchIndexCRProvider" ]} ∪ dom (providers (stack w)).
Proof.
  destruct c as [scope id props|scope].
  - run_constructor w; (split; [reflexivity|]); (split; [reflexivity|]);
      rewrite dom_alter_L; [|rewrite dom_insert_L]; set_solver.
  - destruct w as [hp [rg ps vis aps crs]].
    unfold run, perform, mbind, M_bind. cbn.
    destruct (ps !! "OpenSearchIndexCRProvider"); cbn;
      (split; [reflexivity|]); (split; [reflexivity|]);
      [|rewrite dom_insert_L]; set_solver.
Qed.

(** X5.  A history leaves the instances, access policies and custom
    resources the stack held as they were and where they were, and adds at
    most one of each for each construction in it: a later index never
    touches the dependencies or the payload of an earlier one, and
    [getProvider] declares none of the three. *)
Theorem history_keeps_declarations (cs : list Call) w :
  exists vis aps crs,
    vectorIndexes (stack (perform_all cs w)) = vectorIndexes (stack w) ++ vis
    /\ accessPolicies (stack (perform_all cs w)) = accessPolicies (stack w) ++ aps
    /\ customResources (stack (perform_all cs w)) = customResources (stack w) ++ crs
    /\ length vis <= constructions cs
    /\ length aps <= constructions cs
    /\ length crs <= constructions cs.
Proof.
  revert w. induction cs as [|c cs IH]; intros w; cbn [perform_all].
  - exists [], [], []. rewrite !app_nil_r. repeat split; cbn; lia.
  - destruct (perform_declarations c w) as (v1 & a1 & c1 & Hv1 & Ha1 & Hc1 & Lv1 & La1 & Lc1).
    destruct (IH (run (perform c) w)) as (v2 & a2 & c2 & Hv2 & Ha2 & Hc2 & Lv2 & La2 & Lc2).
    exists (v1 ++ v2), (a1 ++ a2), (c1 ++ c2).
    rewrite Hv2, Ha2, Hc2, Hv1, Ha1, Hc1, <- !app_assoc, !length_app, constructions_cons.
    repeat split; lia.
Qed.

Lemma perform_all_frame (cs : list Call) w :
  region (stack (perform_all cs w)) = region (stack w)
  /\ heap (perform_all cs w) = heap w
  /\ dom (providers (stack (perform_all cs w)))
       ⊆ {[ "OpenSearchIndexCRProvider" ]} ∪ dom (providers (stack w)).
Proof.
  revert w. induction cs as [|c cs IH]; intros w; cbn [perform_all].
  - split; [reflexivity|]. split; [reflexivity|]. apply union_subseteq_r.
  - destruct (perform_frame c w) as (Hr1 & Hh1 & Hd1).
    destruct (IH (run (perform c) w)) as (Hr2 & Hh2 & Hd2).
    rewrite Hr2, Hh2, Hr1, Hh1. split; [reflexivity|]. split; [reflexivity|].
    etransitivity; [exact Hd2|].
    apply union_least; [apply union_subseteq_l|exact Hd1].
Qed.

(** X6.  No history changes the region of the stack or the caller's
    objects, and the only provider a history can add to the stack is the one
    of this file. *)
Theorem history_frame (cs : list Call) w :
  region (stack (perform_all cs w)) = region (stack w)
  /\ heap (perform_all cs w) = heap w
  /\ dom (providers (stack (perform_all cs w)))
       ⊆ {[ "OpenSearchIndexCRProvider" ]} ∪ dom (providers (stack w)).
Proof. apply perform_all_frame. Qed.

(** X4.  Two indexes of one stack, whatever is done between their constructions,
    are served by the same provider: their custom resources carry the same
    service token, and when they are on the same collection their access
    policies have the same document and their payloads the same endpoint. *)
Theorem indexes_share_provider scope1 id1 props1 (cs : list Call) scope2 id2 props2 w :
  let w1 := run (VectorIndex_constructor scope1 id1 props1) w in
  let w2 := perform_all cs w1 in
  let w3 := run (VectorIndex_constructor scope2 id2 props2) w2 in
  exists cr1 ap1 cr2 ap2,
    customResources (stack w1) = customResources (stack w) ++ [cr1]
    /\ accessPolicies (stack w1) = accessPolicies (stack w) ++ [ap1]
    /\ customResources (stack w3) = customResources (stack w2) ++ [cr2]
    /\ accessPolicies (stack w3) = accessPolicies (stack w2) ++ [ap2]
    /\ cdk.serviceToken (cdk.props cr1) = cdk.serviceToken (cdk.props cr2)
    /\ (collectionName (collection props1) = collectionName (collection props2) ->
        oss.policy (oss.props ap1) = oss.policy (oss.props ap2))
    /\ (collectionId (collection props1) = collectionId (collection props2) ->
        Properties.Endpoint (cdk.properties (cdk.props cr1))
        = Properties.Endpoint (cdk.properties (cdk.props cr2))).
Proof.
  cbn zeta.
  set (w1 := run (VectorIndex_constructor scope1 id1 props1) w).
  set (w2 := perform_all cs w1).
  destruct (constructor_provider scope1 id1 props1 w) as (q1 & Hq1 & Hsame1 & _).
  destruct (perform_all_provider cs w1 q1 Hq1) as (q2 & Hq2 & Hsame2).
  assert (result (getProvider OpenSearchIndexCRProvider (scope2 ++ [id2])) w2 = q2) as Hres.
  { unfold result, OpenSearchIndexCRProvider.
    rewrite (getProvider_existing _ _ w2 q2) by exact Hq2. reflexivity. }
  destruct (same_trans _ _ _ Hsame1 Hsame2) as (_ & Harn & Htoken & _).
  destruct (constructor_customResource scope1 id1 props1 w) as (cr1 & Hcr1 & _ & _ & Hp1).
  destruct (constructor_customResource scope2 id2 props2 w2) as (cr2 & Hcr2 & _ & _ & Hp2).
  destruct (constructor_serviceToken scope1 id1 props1 w) as (cr1' & Hcr1' & Ht1 & _).
  destruct (constructor_serviceToken scope2 id2 props2 w2) as (cr2' & Hcr2' & Ht2 & _).
  assert (cr1' = cr1) as -> by (eapply snoc_inj; rewrite <- Hcr1, <- Hcr1'; reflexivity).
  assert (cr2' = cr2) as -> by (eapply snoc_inj; rewrite <- Hcr2, <- Hcr2'; reflexivity).
  destruct (constructor_accessPolicy scope1 id1 props1 w) as (ap1 & Hap1 & _ & Hprops1).
  destruct (constructor_accessPolicy scope2 id2 props2 w2) as (ap2 & Hap2 & _ & Hprops2).
  exists cr1, ap1, cr2, ap2. repeat (split; [assumption|]).
  split; [|split].
  - rewrite Ht1, Ht2, Hres. exact Htoken.
  - intros Hname. rewrite Hprops1, Hprops2, Hres. cbn [oss.policy].
    rewrite Hname, Harn. reflexivity.
  - intros Hid. rewrite Hp1, Hp2. cbn [Properties.Endpoint].
    destruct (perform_all_frame cs w1) as (Hregion2 & _).
    destruct (perform_frame (NewVectorIndex scope1 id1 props1) w) as (Hregion1 & _).
    assert (region (stack w2) = region (stack w)) as ->.
    { unfold w2. rewrite Hregion2. unfold w1.
      revert Hregion1. unfold run, perform, mbind, M_bind.
      destruct (VectorIndex_constructor scope1 id1 props1 w). cbn. auto. }
    rewrite Hid. reflexivity.
Qed.


(** ** More on the payload and the dependencies *)

Lemma or_result_truthy {A} `{Truthy A} (x : option A) (d : A) :
  truthy d = true -> truthy (x ||| d) = true.
Proof.
  intros Hd. unfold Js.or. destruct x as [a|]; [|exact Hd].
  destruct (truthy a) eqn:Ha; [exact Ha|exact Hd].
Qed.

Lemma or_eq_iff {A} `{Truthy A} (x : option A) (d v : A) :
  (x ||| d) = v <->
  (x = Some v /\ truthy v = true)
  \/ (v = d /\ (x = None \/ exists a, x = Some a /\ truthy a = false)).
Proof.
  unfold Js.or. destruct x as [a|].
  - destruct (truthy a) eqn:Ha; split.
    + intros <-. left. split; [reflexivity|exact Ha].
    + intros [[Hx _]|[-> [Hx|(b & Hx & Hb)]]]; [congruence|discriminate|congruence].
    + intros <-. right. split; [reflexivity|]. right. eauto.
    + intros [[Hx Hv]|[-> _]]; [congruence|reflexivity].
  - split.
    + intros <-. right. split; [reflexivity|]. left. reflexivity.
    + intros [[Hx _]|[-> _]]; [discriminate|reflexivity].
Qed.

(** X7.  The payload never carries a falsy engine, space type, method name,
    number of shards or ef_search, whatever the props hold. *)
Theorem payload_never_falsy scope id props w :
  exists cr,
    customResources (stack (run (VectorIndex_constructor scope id props) w))
      = customResources (stack w) ++ [cr]
    /\ Properties.Engine (cdk.properties (cdk.props cr)) <> EmptyString
    /\ Properties.SpaceType (cdk.properties (cdk.props cr)) <> EmptyString
    /\ Properties.MethodName (cdk.properties (cdk.props cr)) <> EmptyString
    /\ truthy (Properties.NumberOfShards (cdk.properties (cdk.props cr))) = true
    /\ truthy (Properties.EfSearch (cdk.properties (cdk.props cr))) = true.
Proof.
  destruct (constructor_customResource scope id props w) as (cr & Hcr & _ & _ & Hp).
  exists cr. split; [exact Hcr|]. rewrite Hp.
  cbn [Properties.Engine Properties.SpaceType Properties.MethodName
       Properties.NumberOfShards Properties.EfSearch].
  split; [apply string_truthy_iff, or_result_truthy; reflexivity|].
  split; [apply string_truthy_iff, or_result_truthy; reflexivity|].
  split; [apply string_truthy_iff, or_result_truthy; reflexivity|].
  split; apply or_result_truthy; reflexivity.
Qed.

(** X8.  A value is the engine, or the number of shards, of the payload exactly
    when it is supplied and truthy, or is the default while the property is
    omitted or falsy. *)
Theorem payload_value_iff scope id props w (e : string) (n : number) :
  exists cr,
    customResources (stack (run (VectorIndex_constructor scope id props) w))
      = customResources (stack w) ++ [cr]
    /\ (Properties.Engine (cdk.properties (cdk.props cr)) = e <->
        (engine props = Some e /\ e <> EmptyString)
        \/ (e = "faiss" /\ (engine props = None \/ engine props = Some EmptyString)))
    /\ (Properties.NumberOfShards (cdk.properties (cdk.props cr)) = n <->
        (numberOfShards props = Some n /\ truthy n = true)
        \/ (n = of_Z 2 /\
            (numberOfShards props = None
             \/ (exists s, numberOfShards props = Some (S754_zero s))
             \/ numberOfShards props = Some NaN))).
Proof.
  destruct (constructor_customResource scope id props w) as (cr & Hcr & _ & _ & Hp).
  exists cr. split; [exact Hcr|]. rewrite Hp.
  cbn [Properties.Engine Properties.NumberOfShards]. split.
  - rewrite or_eq_iff, string_truthy_iff. split.
    + intros [Hs|[-> [Hn|(a & Ha & Hf)]]]; [left; exact Hs|right..].
      * split; [reflexivity|]. left. exact Hn.
      * split; [reflexivity|]. right. destruct a; [exact Ha|discriminate Hf].
    + intros [Hs|[-> [Hn|He]]]; [left; exact Hs|right..].
      * split; [reflexivity|]. left. exact Hn.
      * split; [reflexivity|]. right. eexists. split; [exact He|reflexivity].
  - rewrite or_eq_iff. split.
    + intros [Hs|[-> [Hn|(a & Ha & Hf)]]]; [left; exact Hs|right..].
      * split; [reflexivity|]. left. exact Hn.
      * split; [reflexivity|]. right. apply number_falsy_iff in Hf as [[s ->]| ->].
        -- left. exists s. exact Ha.
        -- right. exact Ha.
    + intros [Hs|[-> [Hn|[[s Hz]|Hnan]]]]; [left; exact Hs|right..].
      * split; [reflexivity|]. left. exact Hn.
      * split; [reflexivity|]. right. eexists. split; [exact Hz|reflexivity].
      * split; [reflexivity|]. right. eexists. split; [exact Hnan|reflexivity].
Qed.

(** X9.  The dependencies of the custom resource are a set that starts with the
    manage-index policy: no construct is in it twice, and it has three
    members exactly when the policy, the collection and the collection's data
    access policy are three constructs. *)
Theorem dependencies_are_a_set scope id props w :
  let manageIndexPolicy := scope ++ [id] ++ ["ManageIndexPolicy"] in
  let c := collection props in
  exists cr,
    customResources (stack (run (VectorIndex_constructor scope id props) w))
      = customResources (stack w) ++ [cr]
    /\ NoDup (cdk.dependencies cr)
    /\ head (cdk.dependencies cr) = Some manageIndexPolicy
    /\ 1 <= length (cdk.dependencies cr) <= 3
    /\ (length (cdk.dependencies cr) = 3 <->
        collectionNode c <> manageIndexPolicy
        /\ dataAccessPolicy c <> manageIndexPolicy
        /\ dataAccessPolicy c <> collectionNode c).
Proof.
  cbn zeta.
  destruct (constructor_customResource scope id props w) as (cr & Hcr & _ & Hdeps & _).
  exists cr. split; [exact Hcr|]. rewrite Hdeps.
  split; [repeat apply NoDup_Set_add; apply NoDup_nil_2|].
  rewrite (Set_add_fresh (scope ++ [id] ++ ["ManageIndexPolicy"]) []) by apply not_elem_of_nil.
  change ([] ++ [scope ++ [id] ++ ["ManageIndexPolicy"]])
    with [scope ++ [id] ++ ["ManageIndexPolicy"]].
  destruct (Set_add_cases (collectionNode (collection props))
              [scope ++ [id] ++ ["ManageIndexPolicy"]]) as [[Hc ->]|[Hc ->]];
    rewrite list_elem_of_singleton in Hc;
    match goal with
    | |- context [Set_add ?x ?s] =>
        destruct (Set_add_cases x s) as [[Hd ->]|[Hd ->]]
    end;
    cbn [app] in Hd |- *;
    rewrite ?elem_of_cons, ?elem_of_nil in Hd;
    (split; [reflexivity|]); cbn [length]; (split; [lia|]);
    (split; [try (intros; lia) | try (intros; discriminate)]);
    intuition congruence.
Qed.


(** ** The policy document *)

(** X12.  Two access policies have the same document exactly when they are for
    collections of the same name and providers with the same role: the
    names and the role are quoted, and no name can pass for another. *)
Theorem policy_document_injective scope1 id1 props1 (w1 : World) scope2 id2 props2 (w2 : World) :
  exists ap1 ap2,
    accessPolicies (stack (run (VectorIndex_constructor scope1 id1 props1) w1))
      = accessPolicies (stack w1) ++ [ap1]
    /\ accessPolicies (stack (run (VectorIndex_constructor scope2 id2 props2) w2))
      = accessPolicies (stack w2) ++ [ap2]
    /\ (oss.policy (oss.props ap1) = oss.policy (oss.props ap2) <->
        collectionName (collection props1) = collectionName (collection props2)
        /\ iam.roleArn (CRProvider.role
             (result (getProvider OpenSearchIndexCRProvider (scope1 ++ [id1])) w1))
           = iam.roleArn (CRProvider.role
             (result (getProvider OpenSearchIndexCRProvider (scope2 ++ [id2])) w2))).
Proof.
  destruct (constructor_accessPolicy scope1 id1 props1 w1) as (ap1 & Hap1 & _ & Hprops1).
  destruct (constructor_accessPolicy scope2 id2 props2 w2) as (ap2 & Hap2 & _ & Hprops2).
  exists ap1, ap2. repeat (split; [assumption|]).
  rewrite Hprops1, Hprops2. cbn [oss.policy]. split.
  - apply policy_text_inj.
  - intros [-> ->]. reflexivity.
Qed.

(** ** Determinism *)




End Properties.

(** * The properties at the sample inputs *)

Section Witnesses.
Import Js.
#[local] Existing Instance sample_plugins.
#[local] Existing Instance sample_host.

Example truthy_numbers :
  Js.truthy (Js.of_Z 0) = false
  /\ Js.truthy (S754_zero true) = false
  /\ Js.truthy Js.NaN = false
  /\ Js.truthy (Js.of_Z 2) = true
  /\ Js.truthy (Js.of_Z (-1)) = true.
Proof. repeat split. Qed.

Example stringify_drops_undefined :
  JSON.stringify sample_Number_toString
    (Js.JObject [ ("a", Js.JArray [ Js.JNumber (Js.of_Z 2); Js.JUndefined; Js.JString "x\y" ]);
                  ("b", Js.JUndefined);
                  ("c", Js.JObject []);
                  ("d", Js.JNumber Js.NaN) ])
  = Some (json_text "{'a':[2,null,'x\\y'],'c':{},'d':null}").
Proof. reflexivity. Qed.

(** What the constructor declares in the sample stack for the full props. *)
Example sample_declarations :
  let w' := run (VectorIndex_constructor sample_scope "Index" sample_props_full) sample_world in
  accessPolicies (stack w') =
    [ {| oss.node := ["App"; "Stack"; "Index"; "ManageIndexPolicy"];
         oss.props :=
           {| oss.name := "App-Stack-Index-ManageIndexPolic";
              oss.type := "data";
              oss.policy := json_text
                ("[{'Rules':[{'Resource':['index/docs/*']," +:+
                 "'Permission':['aoss:DescribeIndex','aoss:CreateIndex'," +:+
                 "'aoss:DeleteIndex','aoss:UpdateIndex'],'ResourceType':'index'}," +:+
                 "{'Resource':['collection/docs']," +:+
                 "'Permission':['aoss:DescribeCollectionItems'],'ResourceType':'collection'}]," +:+
                 "'Principal':['arn:aws:iam::111122223333:role/OpenSearchIndexCRProvider']," +:+
                 "'Description':''}]") |} |} ]
  /\ (cdk.properties ∘ cdk.props) <$> customResources (stack w') =
    [ {| Properties.CollectionName := "docs";
         Properties.Endpoint := "abc123.us-east-1.aoss.amazonaws.com";
         Properties.IndexName := "idx";
         Properties.VectorField := "vec";
         Properties.VectorDimension := Js.of_Z (-4);
         Properties.Engine := "nmslib";
         Properties.SpaceType := "cosinesimil";
         Properties.MethodName := "ivf";
         Properties.Parameters := json_text "{'ef_construction':512,'m':16}";
         Properties.NumberOfShards := Js.of_Z 4;
         Properties.EfSearch := Js.of_Z 100;
         Properties.CustomSettings := "{}";
         Properties.MetadataManagement :=
           [ {| Properties.MappingField := "text";
                Properties.DataType := "text";
                Properties.Filterable := true |};
             {| Properties.MappingField := "meta";
                Properties.DataType := "no such type";
                Properties.Filterable := false |} ];
         Properties.Analyzer :=
           Some {| Properties.CharacterFilters := 1;
                   Properties.Tokenizer := "kuromoji_tokenizer";
                   Properties.TokenFilters := 2 |} |} ]
  /\ cdk.dependencies <$> customResources (stack w') =
    [ [ ["App"; "Stack"; "Index"; "ManageIndexPolicy"];
        ["App"; "Stack"; "Collection"];
        ["App"; "Stack"; "Collection"; "DataAccessPolicy"] ] ]
  /\ vectorIndexes (stack w') =
    [ {| VectorIndex.node := ["App"; "Stack"; "Index"];
         VectorIndex.indexName := "idx";
         VectorIndex.vectorField := "vec";
         VectorIndex.vectorDimensions := Js.of_Z (-4) |} ].
Proof. vm_compute. repeat split. Qed.

(** A second index in the same stack shares the provider of the first: its
    role then carries the collection's policy once. *)
Example sample_shared_provider :
  let w'' := run (VectorIndex_constructor sample_scope "Index" sample_props_full)
               sample_world_later in
  (iam.managedPolicies ∘ CRProvider.role) <$>
      providers (stack w'') !! "OpenSearchIndexCRProvider"
    = Some [ ["App"; "Stack"; "Collection"; "AOSSApiAccessAll"] ]
  /\ length (customResources (stack w'')) = 2
  /\ size (providers (stack w'')) = 1.
Proof. vm_compute. repeat split. Qed.

(** C1 as stated fails where a supplied value is falsy: an empty engine is
    supplied and the payload carries 'faiss', zero shards are supplied and
    the payload carries 2. *)
Lemma C1_counterexample :
  engine sample_props_falsy = Some EmptyString
  /\ numberOfShards sample_props_falsy = Some (Js.of_Z 0)
  /\ exists cr,
       customResources (stack (run
           (VectorIndex_constructor sample_scope "Index" sample_props_falsy) sample_world))
         = [cr]
       /\ Properties.Engine (cdk.properties (cdk.props cr)) = "faiss"
       /\ Properties.Engine (cdk.properties (cdk.props cr)) <> EmptyString
       /\ Properties.NumberOfShards (cdk.properties (cdk.props cr)) = Js.of_Z 2
       /\ Properties.NumberOfShards (cdk.properties (cdk.props cr)) <> Js.of_Z 0.
Proof.
  split; [reflexivity|]. split; [reflexivity|].
  eexists. split; [vm_compute; reflexivity|].
  repeat split; try reflexivity; vm_compute; discriminate.
Qed.

Lemma C1_witness :
  (exists cr,
     customResources (stack (run
         (VectorIndex_constructor sample_scope "Index" sample_props_minimal) sample_world))
       = [cr]
     /\ Properties.Engine (cdk.properties (cdk.props cr)) = "faiss"
     /\ Properties.SpaceType (cdk.properties (cdk.props cr)) = "l2"
     /\ Properties.MethodName (cdk.properties (cdk.props cr)) = "hnsw"
     /\ Properties.Parameters (cdk.properties (cdk.props cr)) = "{}"
     /\ Properties.NumberOfShards (cdk.properties (cdk.props cr)) = Js.of_Z 2
     /\ Properties.EfSearch (cdk.properties (cdk.props cr)) = Js.of_Z 512
     /\ Properties.CustomSettings (cdk.properties (cdk.props cr)) = "{}")
  /\ (exists cr,
     customResources (stack (run
         (VectorIndex_constructor sample_scope "Index" sample_props_full) sample_world))
       = [cr]
     /\ Properties.Engine (cdk.properties (cdk.props cr)) = "nmslib"
     /\ Properties.NumberOfShards (cdk.properties (cdk.props cr)) = Js.of_Z 4
     /\ Some (Properties.Parameters (cdk.properties (cdk.props cr)))
        = JSON.stringify sample_Number_toString
            (Js.JObject [ ("ef_construction", Js.JNumber (Js.of_Z 512));
                          ("m", Js.JNumber (Js.of_Z 16)) ])).
Proof.
  split.
  - destruct (C1_defaults_and_supplied_values sample_scope "Index" sample_props_minimal
                sample_world) as (cr & Hcr & Hdefault & _).
    exists cr. split; [exact Hcr|].
    destruct Hdefault as (He & Hs & Hm & Hp & Hn & Hef & Hc); try reflexivity.
    repeat (split; [assumption|]).
    split; [|split; [assumption|split; [assumption|]]].
    + injection Hp as Hp. symmetry. exact Hp.
    + injection Hc as Hc. symmetry. exact Hc.
  - destruct (C1_defaults_and_supplied_values sample_scope "Index" sample_props_full
                sample_world) as (cr & Hcr & _ & He & _ & _ & Hp & Hn & _).
    exists cr. split; [exact Hcr|].
    split; [apply He; reflexivity|].
    split; [apply Hn; reflexivity|].
    symmetry. apply (Hp 3). reflexivity.
Defined.

Lemma C2_witness :
  exists cr,
    customResources (stack (run
        (VectorIndex_constructor sample_scope "Index" sample_props_minimal) sample_world))
      = [cr]
    /\ cdk.dependencies cr =
       [ ["App"; "Stack"; "Index"; "ManageIndexPolicy"];
         ["App"; "Stack"; "Collection"];
         ["App"; "Stack"; "Collection"; "DataAccessPolicy"] ].
Proof.
  destruct (C2_dependency_edges sample_scope "Index" sample_props_minimal sample_world)
    as (cr & ap & Hcr & _ & _ & _ & _ & Hdeps).
  exists cr. split; [exact Hcr|].
  apply Hdeps; discriminate.
Defined.

Lemma C5_witness :
  (exists cr,
     customResources (stack (run
         (VectorIndex_constructor sample_scope "Index" sample_props_full) sample_world))
       = [cr]
     /\ exists ap,
          Properties.Analyzer (cdk.properties (cdk.props cr)) = Some ap
          /\ characterFilterArrays
               (heap (run (VectorIndex_constructor sample_scope "Index" sample_props_full)
                        sample_world))
               (Properties.CharacterFilters ap) = [ "icu_normalizer" ]
          /\ Properties.Tokenizer ap = "kuromoji_tokenizer"
          /\ tokenFilterArrays
               (heap (run (VectorIndex_constructor sample_scope "Index" sample_props_full)
                        sample_world))
               (Properties.TokenFilters ap) = [ "kuromoji_baseform"; "ja_stop" ])
  /\ (exists cr,
     customResources (stack (run
         (VectorIndex_constructor sample_scope "Index" sample_props_minimal) sample_world))
       = [cr]
     /\ Properties.Analyzer (cdk.properties (cdk.props cr)) = None).
Proof.
  split.
  - destruct (C5_analyzer sample_scope "Index" sample_props_full sample_world)
      as (cr & Hcr & Hsome & _).
    exists cr. split; [exact Hcr|].
    destruct (Hsome _ eq_refl) as (ap & Hap & Hcf & Hcfs & Htok & Htf & Htfs).
    exists ap. split; [exact Hap|].
    split; [rewrite Hcfs; reflexivity|].
    split; [rewrite Htok; reflexivity|].
    rewrite Htfs. reflexivity.
  - destruct (C5_analyzer sample_scope "Index" sample_props_minimal sample_world)
      as (cr & Hcr & _ & Hnone).
    exists cr. split; [exact Hcr|]. apply Hnone. reflexivity.
Defined.

Lemma C6_witness :
  providers (stack sample_world) !! "OpenSearchIndexCRProvider" = None
  /\ lambda.handler (CRProvider.onEventHandler
       (result (getProvider OpenSearchIndexCRProvider sample_scope) sample_world))
     = "handler"
  /\ providers (stack (run (getProvider OpenSearchIndexCRProvider sample_scope) sample_world))
     = <["OpenSearchIndexCRProvider" :=
           result (getProvider OpenSearchIndexCRProvider sample_scope) sample_world]> ∅
  /\ getProvider OpenSearchIndexCRProvider ["App"; "Stack"; "Other"]
       (run (getProvider OpenSearchIndexCRProvider sample_scope) sample_world)
     = (result (getProvider OpenSearchIndexCRProvider sample_scope) sample_world,
        run (getProvider OpenSearchIndexCRProvider sample_scope) sample_world).
Proof.
  split; [reflexivity|].
  destruct (C6_provider_singleton sample_scope ["App"; "Stack"; "Other"] [] sample_world)
    as (Hfirst & _ & _ & Hnext & _).
  destruct (Hfirst eq_refl) as (Hproviders & Hhandler).
  split; [rewrite Hhandler; reflexivity|].
  split; [exact Hproviders|exact Hnext].
Defined.



Lemma C9_witness :
  exists cr,
    customResources (stack (run
        (VectorIndex_constructor sample_scope "Index" sample_props_falsy) sample_world))
      = [cr]
    /\ Properties.NumberOfShards (cdk.properties (cdk.props cr)) = Js.of_Z 2
    /\ Properties.EfSearch (cdk.properties (cdk.props cr)) = Js.of_Z 512
    /\ Properties.Engine (cdk.properties (cdk.props cr)) = "faiss"
    /\ Properties.SpaceType (cdk.properties (cdk.props cr)) = "l2"
    /\ Properties.MethodName (cdk.properties (cdk.props cr)) = "hnsw".
Proof.
  destruct (C9_falsy_values_replaced sample_scope "Index" sample_props_falsy sample_world)
    as (cr & Hcr & Hn & Hef & He & Hs & Hm).
  exists cr. split; [exact Hcr|].
  split; [apply (Hn false); reflexivity|].
  split; [apply (Hef false); reflexivity|].
  split; [apply He; reflexivity|].
  split; [apply Hs; reflexivity|].
  apply Hm; reflexivity.
Defined.

Lemma sample_world_later_named : provider_named sample_world_later.
Proof. intros p Hp. vm_compute in Hp. injection Hp as <-. reflexivity. Qed.

Lemma X1_witness :
  exists q,
    providers (stack (run (VectorIndex_constructor sample_scope "Index" sample_props_full)
                        sample_world_later))
      !! "OpenSearchIndexCRProvider" = Some q
    /\ ["App"; "Stack"; "Collection"; "AOSSApiAccessAll"]
         ∈ iam.managedPolicies (CRProvider.role q).
Proof.
  exact (constructor_attaches_policy sample_scope "Index" sample_props_full
           sample_world_later sample_world_later_named).
Defined.

Lemma X2_witness :
  providers (stack (run (VectorIndex_constructor sample_scope "Index" sample_props_full)
                      sample_world_later))
    = providers (stack sample_world_later).
Proof.
  apply (policy_attached_once sample_scope "Index" sample_props_full sample_world_later
           (result (getProvider OpenSearchIndexCRProvider sample_scope) sample_world_later)).
  - exact sample_world_later_named.
  - reflexivity.
  - apply list_elem_of_In. vm_compute. left. reflexivity.
Defined.

Lemma X3_witness :
  exists q added,
    providers (stack (perform_all
        [ NewVectorIndex sample_scope "Index" sample_props_full; GetProvider sample_scope ]
        sample_world_later))
      !! "OpenSearchIndexCRProvider" = Some q
    /\ iam.managedPolicies (CRProvider.role q)
       = [ ["App"; "Stack"; "Collection"; "AOSSApiAccessAll"] ] ++ added
    /\ NoDup (iam.managedPolicies (CRProvider.role q)).
Proof.
  destruct (managed_policies_accumulate
              [ NewVectorIndex sample_scope "Index" sample_props_full; GetProvider sample_scope ]
              sample_world_later
              (result (getProvider OpenSearchIndexCRProvider sample_scope) sample_world_later)
              eq_refl)
    as (q & added & Hq & Hadded & Hnodup).
  exists q, added. split; [exact Hq|]. split; [exact Hadded|].
  apply Hnodup. apply NoDup_singleton.
Defined.

Lemma X4_witness :
  exists cr1 cr2 ap1 ap2,
    customResources (stack (run
        (VectorIndex_constructor sample_scope "First" sample_props_minimal) sample_world))
      = [cr1]
    /\ accessPolicies (stack (run
        (VectorIndex_constructor sample_scope "First" sample_props_minimal) sample_world))
      = [ap1]
    /\ customResources (stack (run
        (VectorIndex_constructor sample_scope "Index" sample_props_full)
        (perform_all [ GetProvider sample_scope ] sample_world_later)))
      = [cr1; cr2]
    /\ cdk.serviceToken (cdk.props cr1) = cdk.serviceToken (cdk.props cr2)
    /\ oss.policy (oss.props ap1) = oss.policy (oss.props ap2)
    /\ Properties.Endpoint (cdk.properties (cdk.props cr1))
       = Properties.Endpoint (cdk.properties (cdk.props cr2)).
Proof.
  destruct (indexes_share_provider sample_scope "First" sample_props_minimal
              [ GetProvider sample_scope ] sample_scope "Index" sample_props_full sample_world)
    as (cr1 & ap1 & cr2 & ap2 & Hcr1 & Hap1 & Hcr2 & _ & Htoken & Hpolicy & Hendpoint).
  exists cr1, cr2, ap1, ap2.
  split; [exact Hcr1|]. split; [exact Hap1|].
  split.
  { etransitivity; [exact Hcr2|]. change [cr1; cr2] with ([cr1] ++ [cr2]). f_equal.
    transitivity (customResources (stack sample_world_later)); [reflexivity|exact Hcr1]. }
  split; [exact Htoken|]. split; [apply Hpolicy; reflexivity|apply Hendpoint; reflexivity].
Defined.

Lemma X7_witness :
  exists cr,
    customResources (stack (run
        (VectorIndex_constructor sample_scope "Index" sample_props_falsy) sample_world))
      = [cr]
    /\ Properties.Engine (cdk.properties (cdk.props cr)) <> EmptyString
    /\ truthy (Properties.NumberOfShards (cdk.properties (cdk.props cr))) = true.
Proof.
  destruct (payload_never_falsy sample_scope "Index" sample_props_falsy sample_world)
    as (cr & Hcr & Hengine & _ & _ & Hshards & _).
  exists cr. split; [exact Hcr|]. split; [exact Hengine|exact Hshards].
Defined.

Lemma X8_witness :
  exists cr,
    customResources (stack (run
        (VectorIndex_constructor sample_scope "Index" sample_props_falsy) sample_world))
      = [cr]
    /\ Properties.Engine (cdk.properties (cdk.props cr)) = "faiss"
    /\ Properties.NumberOfShards (cdk.properties (cdk.props cr)) = of_Z 2.
Proof.
  destruct (payload_value_iff sample_scope "Index" sample_props_falsy sample_world
              "faiss" (of_Z 2)) as (cr & Hcr & [_ Hengine] & [_ Hshards]).
  exists cr. split; [exact Hcr|]. split.
  - apply Hengine. right. split; [reflexivity|]. right. reflexivity.
  - apply Hshards. right. split; [reflexivity|]. right. left. exists false. reflexivity.
Defined.

Lemma X9_witness :
  exists cr,
    customResources (stack (run
        (VectorIndex_constructor sample_scope "Index" sample_props_minimal) sample_world))
      = [cr]
    /\ length (cdk.dependencies cr) = 3.
Proof.
  destruct (dependencies_are_a_set sample_scope "Index" sample_props_minimal sample_world)
    as (cr & Hcr & _ & _ & _ & [_ Hthree]).
  exists cr. split; [exact Hcr|]. apply Hthree. repeat split; discriminate.
Defined.

Lemma X12_witness :
  exists ap1 ap2,
    accessPolicies (stack (run
        (VectorIndex_constructor sample_scope "Index" sample_props_full) sample_world))
      = [ap1]
    /\ accessPolicies (stack (run
        (VectorIndex_constructor sample_scope "Index" sample_props_minimal) sample_world_later))
      = accessPolicies (stack sample_world_later) ++ [ap2]
    /\ oss.policy (oss.props ap1) = oss.policy (oss.props ap2).
Proof.
  destruct (policy_document_injective sample_scope "Index" sample_props_full sample_world
              sample_scope "Index" sample_props_minimal sample_world_later)
    as (ap1 & ap2 & H1 & H2 & [_ Hsame]).
  exists ap1, ap2. split; [exact H1|]. split; [exact H2|].
  apply Hsame. split; reflexivity.
Defined.

End Witnesses.
